(** * CofI_KOSMOS: [plot_dark_with_distributions]

    A shallow embedding of [CofI_KOSMOS/plot_dark_with_distributions.py].

    Modelling conventions.
    - Python scalars are real numbers ([R]): rounding, overflow and signed
      zeros of binary floating point are not represented.  The one effect
      of binary64 that is represented is underflow in what scipy returns:
      a mass or density too small for a double is [0.0].
    - Values produced by numpy and scipy are [npfloat]: a real number or
      [NaN], with NaN-propagating arithmetic.
    - Python's scalar division raises [ZeroDivisionError]; the exception
      carries the source line of the expression that raised it.
    - pyplot draws on an implicit current axes: the function is a
      computation in a state-and-exception monad over that axes, and what
      was drawn before an exception stays drawn.
    - A [str.format] call is kept as its template and its argument. *)

From Stdlib Require Import Reals Lra Lia ZArith List String Bool.
Import ListNotations.

Open Scope R_scope.

(** ** numpy *)

Module Numpy.

Inductive npfloat : Type :=
| Num (r : R)
| NaN.

Definition lift2 (f : R -> R -> R) (a b : npfloat) : npfloat :=
  match a, b with
  | Num x, Num y => Num (f x y)
  | _, _ => NaN
  end.

Definition add : npfloat -> npfloat -> npfloat := lift2 Rplus.
Definition sub : npfloat -> npfloat -> npfloat := lift2 Rminus.
Definition mul : npfloat -> npfloat -> npfloat := lift2 Rmult.

(** Array division.  numpy does not raise on a zero divisor: it yields
    [nan] for [0/0] and an infinity otherwise.  Infinities are outside
    [npfloat]; lemma [zero_area_zero_masses] below shows that a zero
    divisor on line 63 only meets zero masses, the [0/0] case. *)
Definition div (a b : npfloat) : npfloat :=
  match a, b with
  | Num x, Num y => if Req_dec_T y 0 then NaN else Num (x / y)
  | _, _ => NaN
  end.

(** [np.sqrt]: [nan] on a negative argument. *)
Definition sqrt (x : R) : npfloat :=
  if Rlt_dec x 0 then NaN else Num (R_sqrt.sqrt x).

(** [np.sum] of a one-dimensional array. *)
Definition sum (l : list npfloat) : npfloat :=
  fold_right add (Num 0) l.

(** [np.arange(start, stop, step)] on integers, for a positive step. *)
Definition arange (start stop step : Z) : list Z :=
  map (fun i => (start + step * Z.of_nat i)%Z)
      (seq 0 (Z.to_nat ((stop - start + step - 1) / step))).

(** [np.linspace(start, stop, num)] with the default [endpoint=True]:
    [start + i * ((stop - start) / (num - 1))], the last point being set
    to [stop]. *)
Definition linspace (start stop : npfloat) (num : nat) : list npfloat :=
  match num with
  | O => []
  | S O => [start]
  | S m =>
      let step := div (sub stop start) (Num (INR m)) in
      map (fun i => add start (mul (Num (INR i)) step)) (seq 0 m)
        ++ [stop]
  end.

End Numpy.

Import Numpy.

(** ** scipy.stats *)

Module Stats.

(** The smallest positive double is [2^-1074]; rounding to nearest, a
    non-negative result at or below [2^-1075] is returned as [0.0]. *)
Definition tiny : R := / 2 ^ 1075.

Definition underflow (r : R) : R := if Rle_dec r tiny then 0 else r.

(** [stats.poisson(mu).pmf(k)] at an integer [k]: [nan] when the shape
    parameter is invalid ([mu < 0]), zero below the support, and the mass
    [exp(-mu) mu^k / k!], which scipy obtains from one call of [exp] and
    which is therefore [0.0] when it is too small for a double. *)
Definition poisson_pmf (mu : R) (k : Z) : npfloat :=
  if Rlt_dec mu 0 then NaN
  else if (k <? 0)%Z then Num 0
  else Num (underflow
              (exp (- mu) * mu ^ Z.to_nat k / INR (fact (Z.to_nat k)))).

(** [stats.norm(loc, scale).pdf(x)]: [nan] unless [scale > 0]; scipy
    takes [exp(-z^2/2)] for [z = (x - loc) / scale] and divides it by
    [sqrt(2 pi)] and by the scale, and both the exponential and the
    quotient are [0.0] when too small for a double. *)
Definition norm_pdf (loc : R) (scale : npfloat) (x : npfloat) : npfloat :=
  match scale, x with
  | Num s, Num v =>
      if Rlt_dec 0 s
      then Num (underflow
                  (underflow (exp (- ((v - loc) / s) ^ 2 / 2))
                   / (s * R_sqrt.sqrt (2 * PI))))
      else NaN
  | _, _ => NaN
  end.

End Stats.

(** ** matplotlib.pyplot *)

Module Pyplot.

Inductive label : Type :=
| Plain (s : string)
| Format (template : string) (arg : R).

Inductive artist : Type :=
| Hist (x : list R) (bins : nat) (align : string) (range : R * R)
       (density : bool) (lbl : label)
| Line (xs ys : list npfloat) (lbl : label).

Record axes : Type := mkAxes
  { artists : list artist;
    xlabel : option label;
    ylabel : option label;
    grid_on : bool;
    legend_on : bool }.

Definition clear : axes :=
  {| artists := []; xlabel := None; ylabel := None;
     grid_on := false; legend_on := false |}.

End Pyplot.

Import Pyplot.

(** ** Exceptions and the plotting monad *)

Inductive exn : Type :=
| ZeroDivisionError (lineno : nat).

Inductive outcome (A : Type) : Type :=
| Returned (a : A)
| Raised (e : exn).

Arguments Returned {A} a.
Arguments Raised {A} e.

Definition M (A : Type) : Type := axes -> outcome A * axes.

Definition ret {A} (a : A) : M A := fun ax => (Returned a, ax).

Definition bind {A B} (m : M A) (k : A -> M B) : M B :=
  fun ax =>
    match m ax with
    | (Returned a, ax') => k a ax'
    | (Raised e, ax') => (Raised e, ax')
    end.

Declare Scope plt_scope.
Delimit Scope plt_scope with plt.

Notation "x <- m ;; k" := (bind m (fun x => k))
  (at level 100, m at next level, right associativity) : plt_scope.
Notation "m ;; k" := (bind m (fun _ => k))
  (at level 100, right associativity) : plt_scope.

Open Scope plt_scope.

(** Python's [a / b] on scalars, evaluated at source line [lineno]. *)
Definition py_div (lineno : nat) (a b : R) : M R :=
  fun ax =>
    if Req_dec_T b 0 then (Raised (ZeroDivisionError lineno), ax)
    else (Returned (a / b), ax).

Definition add_artist (a : artist) : M unit :=
  fun ax =>
    (Returned tt,
     {| artists := artists ax ++ [a]; xlabel := xlabel ax;
        ylabel := ylabel ax; grid_on := grid_on ax;
        legend_on := legend_on ax |}).

Definition plt_hist (x : list R) (bins : nat) (align : string)
    (range : R * R) (density : bool) (lbl : label) : M unit :=
  add_artist (Hist x bins align range density lbl).

Definition plt_plot (xs ys : list npfloat) (lbl : label) : M unit :=
  add_artist (Line xs ys lbl).

Definition plt_xlabel (l : label) : M unit :=
  fun ax =>
    (Returned tt,
     {| artists := artists ax; xlabel := Some l; ylabel := ylabel ax;
        grid_on := grid_on ax; legend_on := legend_on ax |}).

Definition plt_ylabel (l : label) : M unit :=
  fun ax =>
    (Returned tt,
     {| artists := artists ax; xlabel := xlabel ax; ylabel := Some l;
        grid_on := grid_on ax; legend_on := legend_on ax |}).

(** [plt.grid()] without arguments toggles the grid lines. *)
Definition plt_grid : M unit :=
  fun ax =>
    (Returned tt,
     {| artists := artists ax; xlabel := xlabel ax; ylabel := ylabel ax;
        grid_on := negb (grid_on ax); legend_on := legend_on ax |}).

Definition plt_legend : M unit :=
  fun ax =>
    (Returned tt,
     {| artists := artists ax; xlabel := xlabel ax; ylabel := ylabel ax;
        grid_on := grid_on ax; legend_on := true |}).

(** ** The function *)

(** [image.flatten()]: the rows of the two-dimensional array, in order. *)
Definition flatten (image : list (list R)) : list R := List.concat image.

(** Line 57. *)
Definition expected_mean_dark (dark_rate exposure gain : R) : M R :=
  py_div 57 (dark_rate * exposure) gain.

(** Line 58: the shape parameter given to [stats.poisson]. *)
Definition pois_mu (expected_mean_dark n_images : R) : R :=
  expected_mean_dark - 3 * n_images.

(** Line 59. *)
Definition pois_x : list Z := arange 0 200 5.

(** [pois.pmf(pois_x)]. *)
Definition pois_pmf (mu : R) : list npfloat :=
  map (Stats.poisson_pmf mu) pois_x.

(** Line 60: [1 / n_images] is evaluated first, on Python scalars. *)
Definition new_area (mu n_images : R) : M npfloat :=
  inv_n <- py_div 60 1 n_images ;;
  ret (Numpy.sum (map (mul (Num inv_n)) (pois_pmf mu))).

(** Lines 63-64: the arguments of the first [plt.plot]. *)
Definition poisson_xs (n_images : R) : list npfloat :=
  map (fun x => div (Num (IZR x)) (Num n_images)) pois_x.

Definition poisson_ys (mu : R) (area : npfloat) : list npfloat :=
  map (fun p => div p area) (pois_pmf mu).

Definition poisson_label (expected_mean_dark : R) : label :=
  Format "Poisson distribution, mean of {:5.2f} counts" expected_mean_dark.

(** Line 68, after [rn / gain]. *)
Definition expected_scale (rn_over_gain n_images : R) : npfloat :=
  mul (Num rn_over_gain) (Numpy.sqrt n_images).

(** Line 70. *)
Definition expected_mean (expected_mean_dark n_images : R) : R :=
  expected_mean_dark * n_images.

(** Line 71: the parameters given to [stats.norm]. *)
Definition gauss_loc (expected_mean : R) : R := expected_mean - 3.

Definition gauss_scale (expected_scale : npfloat) : npfloat :=
  add expected_scale (Num 3).

(** Lines 72-74. *)
Definition gauss_x (expected_mean : R) (expected_scale : npfloat)
  : list npfloat :=
  linspace
    (add (sub (Num expected_mean) (mul (Num 3) expected_scale)) (Num 3))
    (add (add (Num expected_mean) (mul (Num 3) expected_scale)) (Num 3))
    100.

(** Line 75: the arguments of the second [plt.plot]. *)
Definition gaussian_xs (xs : list npfloat) (n_images : R) : list npfloat :=
  map (fun x => div x (Num n_images)) xs.

Definition gaussian_ys (loc : R) (scale : npfloat) (xs : list npfloat)
    (n_images : R) : list npfloat :=
  map (fun x => mul (Stats.norm_pdf loc scale x) (Num n_images)) xs.

Definition gaussian_label : label :=
  Plain "Gaussian, standard dev is read noise in counts".

Definition show_gaussian_branch (rn gain emd n_images : R) : M unit :=
  rn_over_gain <- py_div 68 rn gain ;;
  let es := expected_scale rn_over_gain n_images in
  let em := expected_mean emd n_images in
  let xs := gauss_x em es in
  plt_plot (gaussian_xs xs n_images)
           (gaussian_ys (gauss_loc em) (gauss_scale es) xs n_images)
           gaussian_label.

(** Lines 77-78. *)
Definition exposure_label (exposure : R) : label :=
  Format "Dark counts in {} sec exposure" exposure.

Definition fraction_label : label :=
  Plain "Fraction of pixels (area normalized to 1)".

Definition plot_dark_with_distributions
    (image : list (list R)) (rn dark_rate n_images exposure gain : R)
    (show_poisson show_gaussian : bool) : M unit :=
  plt_hist (flatten image) 100 "mid" (-50, 200) true (Plain "Dark frame") ;;
  emd <- expected_mean_dark dark_rate exposure gain ;;
  let mu := pois_mu emd n_images in
  area <- new_area mu n_images ;;
  (if show_poisson
   then plt_plot (poisson_xs n_images) (poisson_ys mu area)
                 (poisson_label emd)
   else ret tt) ;;
  (if show_gaussian
   then show_gaussian_branch rn gain emd n_images
   else ret tt) ;;
  plt_xlabel (exposure_label exposure) ;;
  plt_ylabel fraction_label ;;
  plt_grid ;;
  plt_legend.

(** The function with its keyword defaults:
    [n_images = 1, exposure = 1, gain = 1, show_poisson = True,
     show_gaussian = True]. *)
Definition plot_dark_with_distributions_default
    (image : list (list R)) (rn dark_rate : R) : M unit :=
  plot_dark_with_distributions image rn dark_rate 1 1 1 true true.

(** ** Vocabulary of the statements *)

(** The histogram series of lines 54-55. *)
Definition dark_frame_hist (image : list (list R)) : artist :=
  Hist (flatten image) 100 "mid" (-50, 200) true (Plain "Dark frame").

(** The value bound to [new_area] when line 60 does not raise. *)
Definition area_value (mu n_images : R) : npfloat :=
  Numpy.sum (map (mul (Num (1 / n_images))) (pois_pmf mu)).

(** The curve of lines 63-64, for the value [emd] of line 57. *)
Definition poisson_curve (emd n_images : R) : artist :=
  let mu := pois_mu emd n_images in
  Line (poisson_xs n_images) (poisson_ys mu (area_value mu n_images))
       (poisson_label emd).

(** The curve of line 75. *)
Definition gaussian_curve (rn gain emd n_images : R) : artist :=
  let es := expected_scale (rn / gain) n_images in
  let em := expected_mean emd n_images in
  let xs := gauss_x em es in
  Line (gaussian_xs xs n_images)
       (gaussian_ys (gauss_loc em) (gauss_scale es) xs n_images)
       gaussian_label.

Definition overlays (rn dark_rate n_images exposure gain : R)
    (show_poisson show_gaussian : bool) : list artist :=
  let emd := dark_rate * exposure / gain in
  (if show_poisson then [poisson_curve emd n_images] else [])
  ++ (if show_gaussian then [gaussian_curve rn gain emd n_images] else []).

(** The axes after more series were drawn on it. *)
Definition drawn (ax : axes) (l : list artist) : axes :=
  {| artists := artists ax ++ l; xlabel := xlabel ax; ylabel := ylabel ax;
     grid_on := grid_on ax; legend_on := legend_on ax |}.

(** The axes after lines 77-80. *)
Definition decorated (ax : axes) (exposure : R) : axes :=
  {| artists := artists ax;
     xlabel := Some (exposure_label exposure);
     ylabel := Some fraction_label;
     grid_on := negb (grid_on ax);
     legend_on := true |}.

Definition is_hist (a : artist) : bool :=
  match a with Hist _ _ _ _ _ _ => true | Line _ _ _ => false end.

Definition is_line (a : artist) : bool := negb (is_hist a).

(** The sample points of line 59, written out. *)
Definition sample_points : list Z :=
  [0; 5; 10; 15; 20; 25; 30; 35; 40; 45; 50; 55; 60; 65; 70; 75; 80; 85;
   90; 95; 100; 105; 110; 115; 120; 125; 130; 135; 140; 145; 150; 155;
   160; 165; 170; 175; 180; 185; 190; 195]%Z.

(** The Poisson probability mass [exp(-mu) mu^k / k!] as a real number. *)
Definition pmf_real (mu : R) (k : nat) : R :=
  exp (- mu) * mu ^ k / INR (fact k).

Definition Rsum (l : list R) : R := fold_right Rplus 0 l.

(** The mass scipy returns for a valid shape parameter. *)
Definition mass (mu : R) (k : nat) : R := Stats.underflow (pmf_real mu k).

(** Lines 62-80 on their own: what a call does once [expected_mean_dark]
    and [new_area] are bound. *)
Definition lines_62_80 (rn n_images exposure gain emd : R) (area : npfloat)
    (show_poisson show_gaussian : bool) : M unit :=
  (if show_poisson
   then plt_plot (poisson_xs n_images)
                 (poisson_ys (pois_mu emd n_images) area)
                 (poisson_label emd)
   else ret tt) ;;
  (if show_gaussian
   then show_gaussian_branch rn gain emd n_images
   else ret tt) ;;
  plt_xlabel (exposure_label exposure) ;;
  plt_ylabel fraction_label ;;
  plt_grid ;;
  plt_legend.

Definition artist_label (a : artist) : label :=
  match a with
  | Hist _ _ _ _ _ l => l
  | Line _ _ l => l
  end.

(** Lines 57-60 on their own: what every call evaluates before it looks
    at [show_poisson] and [show_gaussian]. *)
Definition lines_57_60 (dark_rate n_images exposure gain : R) : M npfloat :=
  emd <- expected_mean_dark dark_rate exposure gain ;;
  new_area (pois_mu emd n_images) n_images.

(** ** The three ways a call ends *)

Lemma drawn_drawn (ax : axes) (l1 l2 : list artist) :
  drawn (drawn ax l1) l2 = drawn ax (l1 ++ l2).
Proof. unfold drawn; simpl. now rewrite app_assoc. Qed.

Lemma drawn_nil (ax : axes) : drawn ax [] = ax.
Proof. destruct ax; unfold drawn; simpl. now rewrite app_nil_r. Qed.

Lemma add_artist_drawn (a : artist) (ax : axes) :
  add_artist a ax = (Returned tt, drawn ax [a]).
Proof. reflexivity. Qed.

Lemma py_div_zero (l : nat) (a : R) (ax : axes) :
  py_div l a 0 ax = (Raised (ZeroDivisionError l), ax).
Proof. unfold py_div. destruct (Req_dec_T 0 0); [reflexivity | contradiction]. Qed.

Lemma py_div_nonzero (l : nat) (a b : R) (ax : axes) :
  b <> 0 -> py_div l a b ax = (Returned (a / b), ax).
Proof. intros Hb. unfold py_div. destruct (Req_dec_T b 0); [contradiction | reflexivity]. Qed.

Lemma new_area_nonzero (mu n_images : R) (ax : axes) :
  n_images <> 0 ->
  new_area mu n_images ax = (Returned (area_value mu n_images), ax).
Proof.
  intros Hn. unfold new_area, bind. now rewrite py_div_nonzero.
Qed.

Lemma run_gain_zero image rn dark_rate n_images exposure sp sg ax :
  plot_dark_with_distributions image rn dark_rate n_images exposure 0 sp sg ax
  = (Raised (ZeroDivisionError 57), drawn ax [dark_frame_hist image]).
Proof.
  unfold plot_dark_with_distributions, bind, plt_hist, expected_mean_dark.
  rewrite add_artist_drawn, py_div_zero. reflexivity.
Qed.

Lemma run_n_images_zero image rn dark_rate exposure gain sp sg ax :
  gain <> 0 ->
  plot_dark_with_distributions image rn dark_rate 0 exposure gain sp sg ax
  = (Raised (ZeroDivisionError 60), drawn ax [dark_frame_hist image]).
Proof.
  intros Hg.
  unfold plot_dark_with_distributions, bind, plt_hist, expected_mean_dark,
    new_area, bind.
  rewrite add_artist_drawn, py_div_nonzero by assumption.
  rewrite py_div_zero. reflexivity.
Qed.

Lemma run_returns image rn dark_rate n_images exposure gain sp sg ax :
  gain <> 0 -> n_images <> 0 ->
  plot_dark_with_distributions image rn dark_rate n_images exposure gain
    sp sg ax
  = (Returned tt,
     decorated
       (drawn ax (dark_frame_hist image
                    :: overlays rn dark_rate n_images exposure gain sp sg))
       exposure).
Proof.
  intros Hg Hn.
  unfold plot_dark_with_distributions, bind at 1, plt_hist.
  rewrite add_artist_drawn.
  unfold bind at 1, expected_mean_dark.
  rewrite py_div_nonzero by assumption.
  unfold bind at 1. rewrite new_area_nonzero by assumption.
  unfold overlays, show_gaussian_branch, plt_plot.
  destruct sp, sg; unfold bind, ret;
    repeat rewrite add_artist_drawn;
    repeat rewrite py_div_nonzero by assumption;
    repeat rewrite add_artist_drawn;
    repeat rewrite drawn_drawn; reflexivity.
Qed.

(** ** The sample points and the Poisson masses *)

Lemma pois_x_sample_points : pois_x = sample_points.
Proof. reflexivity. Qed.

Lemma sample_points_nonneg : Forall (fun k => (0 <= k)%Z) sample_points.
Proof. unfold sample_points. repeat constructor; lia. Qed.

Lemma pmf_real_pos (mu : R) (k : nat) :
  0 < mu -> 0 < pmf_real mu k.
Proof.
  intros Hmu. unfold pmf_real.
  apply Rdiv_lt_0_compat.
  - apply Rmult_lt_0_compat; [apply exp_pos | now apply pow_lt].
  - apply INR_fact_lt_0.
Qed.

Lemma pmf_real_nonneg (mu : R) (k : nat) :
  0 <= mu -> 0 <= pmf_real mu k.
Proof.
  intros Hmu. unfold pmf_real.
  apply Rmult_le_pos.
  - apply Rmult_le_pos; [left; apply exp_pos | now apply pow_le].
  - left. apply Rinv_0_lt_compat, INR_fact_lt_0.
Qed.

Lemma pmf_real_0 (mu : R) : pmf_real mu 0 = exp (- mu).
Proof. unfold pmf_real. simpl. field. Qed.

(** *** Underflow *)

Lemma tiny_pos : 0 < Stats.tiny.
Proof.
  unfold Stats.tiny. apply Rinv_0_lt_compat, pow_lt. lra.
Qed.

Lemma underflow_small (r : R) : r <= Stats.tiny -> Stats.underflow r = 0.
Proof.
  intros H. unfold Stats.underflow.
  destruct (Rle_dec r Stats.tiny); [reflexivity | contradiction].
Qed.

Lemma underflow_large (r : R) : Stats.tiny < r -> Stats.underflow r = r.
Proof.
  intros H. unfold Stats.underflow.
  destruct (Rle_dec r Stats.tiny); [lra | reflexivity].
Qed.

Lemma underflow_bounds (r : R) : 0 <= r -> 0 <= Stats.underflow r <= r.
Proof.
  intros H. unfold Stats.underflow.
  destruct (Rle_dec r Stats.tiny); lra.
Qed.

Lemma mass_nonneg (mu : R) (k : nat) : 0 <= mu -> 0 <= mass mu k.
Proof.
  intros Hmu. unfold mass. now apply underflow_bounds, pmf_real_nonneg.
Qed.

Lemma exp_scaled (x : R) (n : nat) : exp (INR n * x) = exp x ^ n.
Proof.
  induction n as [| n IH].
  - simpl. rewrite Rmult_0_l. apply exp_0.
  - rewrite S_INR, Rmult_plus_distr_r, Rmult_1_l, exp_plus, IH.
    simpl. ring.
Qed.

Lemma exp_1_ge : 5 / 2 <= exp 1.
Proof.
  replace 1 with (INR 8 * (1 / 8)) at 1 by (simpl; field).
  rewrite exp_scaled.
  apply Rle_trans with ((9 / 8) ^ 8); [simpl; lra |].
  apply pow_incr. pose proof (exp_ineq1 (1 / 8) ltac:(lra)). lra.
Qed.

Lemma INR_literal (n : nat) : INR n = IZR (Z.of_nat n).
Proof. apply INR_IZR_INZ. Qed.

(** [exp 670 <= 3^670 = (3^5)^134 <= (2^8)^134 < 2^1075]. *)
Lemma exp_670_lt : exp 670 < 2 ^ 1075.
Proof.
  replace 670 with (INR 670 * 1)
    by (rewrite INR_literal; change (IZR (Z.of_nat 670)) with 670; ring).
  rewrite exp_scaled.
  apply Rle_lt_trans with (3 ^ 670).
  { apply pow_incr. split; [left; apply exp_pos | apply exp_le_3]. }
  change 670%nat with (5 * 134)%nat. rewrite pow_mult.
  apply Rle_lt_trans with ((2 ^ 8) ^ 134).
  { apply pow_incr. simpl. lra. }
  rewrite <- pow_mult. apply Rlt_pow; [lra | simpl; lia].
Qed.

(** [exp 2000 >= (5/2)^2000 = ((5/2)^25)^80 >= (2^33)^80 = 2^2640]. *)
Lemma exp_2000_ge : 2 ^ 2640 <= exp 2000.
Proof.
  replace 2000 with (INR 2000 * 1)
    by (rewrite INR_literal; change (IZR (Z.of_nat 2000)) with 2000; ring).
  rewrite exp_scaled.
  apply Rle_trans with ((5 / 2) ^ 2000).
  2:{ apply pow_incr. split; [lra | apply exp_1_ge]. }
  change 2640%nat with (33 * 80)%nat. change 2000%nat with (25 * 80)%nat.
  rewrite !pow_mult. apply pow_incr. split; [apply pow_le; lra |].
  simpl. lra.
Qed.

(** [k! >= 64^(k - 63)]: every factor from 64 on is at least 64. *)
Lemma fact_ge_pow (k : nat) : 64 ^ (k - 63) <= INR (fact k).
Proof.
  induction k as [| k IH].
  - simpl. lra.
  - destruct (Nat.le_gt_cases 63 k) as [Hk | Hk].
    + replace (S k - 63)%nat with (S (k - 63)) by lia.
      rewrite fact_simpl, mult_INR. cbn [pow].
      assert (H64 : 64 <= INR (S k)).
      { change 64 with (IZR (Z.of_nat 64)). rewrite <- INR_IZR_INZ.
        apply le_INR. lia. }
      assert (Hp : 0 <= 64 ^ (k - 63)) by (apply pow_le; lra).
      apply Rmult_le_compat; lra.
    + replace (S k - 63)%nat with O by lia. cbn [pow].
      pose proof (INR_fact_lt_0 (S k)) as Hpos.
      change 1 with (INR 1). apply le_INR.
      pose proof (lt_O_fact (S k)). lia.
Qed.

(** Up to a shape parameter of 670 the mass at 0, [exp(-mu)], is a
    positive double. *)
Lemma mass_0_pos (mu : R) : 0 <= mu <= 670 -> 0 < mass mu 0.
Proof.
  intros [Hlo Hhi]. unfold mass. rewrite pmf_real_0.
  assert (Hexp : exp mu < 2 ^ 1075).
  { apply Rle_lt_trans with (exp 670); [| apply exp_670_lt].
    destruct Hhi as [Hhi | ->]; [| lra]. left. now apply exp_increasing. }
  assert (Ht : Stats.tiny < exp (- mu)).
  { unfold Stats.tiny. rewrite exp_Ropp.
    apply Rinv_lt_contravar; [| assumption].
    apply Rmult_lt_0_compat; [apply exp_pos | apply pow_lt; lra]. }
  rewrite underflow_large by assumption. apply exp_pos.
Qed.

Lemma quotient_le (E P F T : R) :
  0 < E -> 0 < F -> 0 < T -> P * T <= E * F -> / E * P / F <= / T.
Proof.
  intros HE HF HT H.
  apply (Rmult_le_reg_r (E * F * T)).
  - repeat apply Rmult_lt_0_compat; assumption.
  - replace (/ E * P / F * (E * F * T)) with (P * T) by (field; lra).
    replace (/ T * (E * F * T)) with (E * F) by (field; lra).
    assumption.
Qed.

(** With shape parameter 2000 every mass at a point up to 195 is below
    the range of a double:
    [2000^k 2^1075 <= 2^(11 k + 1075) <= 2^2640 64^(k - 63)
     <= exp 2000 * k!]. *)
Lemma mass_2000_underflows (k : nat) :
  (k <= 195)%nat -> mass 2000 k = 0.
Proof.
  intros Hk. unfold mass. apply underflow_small.
  unfold pmf_real, Stats.tiny. rewrite exp_Ropp.
  apply quotient_le.
  - apply exp_pos.
  - apply INR_fact_lt_0.
  - apply pow_lt. lra.
  - apply Rle_trans with (2 ^ (11 * k + 1075)).
    { rewrite pow_add, pow_mult.
      apply Rmult_le_compat_r; [apply pow_le; lra |].
      apply pow_incr. simpl. lra. }
    apply Rle_trans with (2 ^ (2640 + 6 * (k - 63))).
    { apply Rle_pow; [lra | lia]. }
    rewrite pow_add, pow_mult.
    replace (2 ^ 6) with 64 by (simpl; lra).
    apply Rmult_le_compat.
    + apply pow_le. lra.
    + apply pow_le. lra.
    + apply exp_2000_ge.
    + apply fact_ge_pow.
Qed.

Lemma sample_points_bounded :
  Forall (fun k => (Z.to_nat k <= 195)%nat) sample_points.
Proof. unfold sample_points. repeat constructor; lia. Qed.

Lemma masses_2000_underflow :
  Forall (fun k => mass 2000 (Z.to_nat k) = 0) sample_points.
Proof.
  eapply Forall_impl; [| exact sample_points_bounded].
  intros k Hk. now apply mass_2000_underflows.
Qed.

Lemma poisson_pmf_valid (mu : R) (k : Z) :
  0 <= mu -> (0 <= k)%Z ->
  Stats.poisson_pmf mu k = Num (mass mu (Z.to_nat k)).
Proof.
  intros Hmu Hk. unfold Stats.poisson_pmf.
  destruct (Rlt_dec mu 0) as [Hneg | _]; [lra |].
  destruct (Z.ltb_spec k 0); [lia | reflexivity].
Qed.

Lemma poisson_pmf_invalid (mu : R) (k : Z) :
  mu < 0 -> Stats.poisson_pmf mu k = NaN.
Proof.
  intros Hmu. unfold Stats.poisson_pmf.
  destruct (Rlt_dec mu 0); [reflexivity | contradiction].
Qed.

Lemma Num_inj (a b : R) : Num a = Num b -> a = b.
Proof. intros H. now inversion H. Qed.

Lemma sum_Num (l : list R) : Numpy.sum (map Num l) = Num (Rsum l).
Proof.
  induction l as [| x l IH]; [reflexivity |].
  unfold Numpy.sum in *. simpl. now rewrite IH.
Qed.

Lemma Rsum_scale (c : R) (l : list R) :
  Rsum (map (Rmult c) l) = c * Rsum l.
Proof.
  induction l as [| x l IH]; simpl; [ring | rewrite IH; ring].
Qed.

Lemma Rsum_nonneg (l : list R) :
  Forall (fun x => 0 <= x) l -> 0 <= Rsum l.
Proof.
  induction 1 as [| x l Hx _ IH]; simpl; lra.
Qed.

Lemma Rsum_zero (l : list R) :
  Forall (fun x => x = 0) l -> Rsum l = 0.
Proof.
  induction 1 as [| x l Hx _ IH]; simpl; lra.
Qed.

Lemma Rsum_zero_inv (l : list R) :
  Forall (fun x => 0 <= x) l -> Rsum l = 0 -> Forall (fun x => x = 0) l.
Proof.
  induction 1 as [| x l Hx Hl IH]; intros Hs; constructor.
  - pose proof (Rsum_nonneg l Hl). simpl in Hs. lra.
  - apply IH. pose proof (Rsum_nonneg l Hl). simpl in Hs. lra.
Qed.

Lemma pois_pmf_valid (mu : R) :
  0 <= mu ->
  pois_pmf mu = map Num (map (fun k => mass mu (Z.to_nat k)) pois_x).
Proof.
  intros Hmu. unfold pois_pmf. rewrite map_map.
  apply map_ext_in. intros k Hk.
  apply poisson_pmf_valid; [assumption |].
  rewrite pois_x_sample_points in Hk.
  pose proof sample_points_nonneg as H.
  rewrite Forall_forall in H. now apply H.
Qed.

(** The divisor as a real number, for a valid shape parameter. *)
Lemma area_value_valid (mu n_images : R) :
  0 <= mu ->
  area_value mu n_images
  = Num (1 / n_images * Rsum (map (fun k => mass mu (Z.to_nat k)) pois_x)).
Proof.
  intros Hmu. unfold area_value.
  rewrite pois_pmf_valid by assumption.
  rewrite map_map. simpl mul.
  rewrite <- (map_map (Rmult (1 / n_images)) Num).
  rewrite sum_Num, <- (map_map _ (Rmult (1 / n_images))), Rsum_scale.
  reflexivity.
Qed.

Lemma area_value_invalid (mu n_images : R) :
  mu < 0 -> area_value mu n_images = NaN.
Proof.
  intros Hmu. unfold area_value, pois_pmf.
  rewrite pois_x_sample_points. unfold sample_points.
  cbn [map Numpy.sum fold_right].
  now rewrite poisson_pmf_invalid by assumption.
Qed.

Lemma masses_nonneg (mu : R) :
  0 <= mu ->
  Forall (fun y => 0 <= y) (map (fun k => mass mu (Z.to_nat k)) pois_x).
Proof.
  intros Hmu. apply Forall_forall. intros y Hy.
  apply in_map_iff in Hy. destruct Hy as [k [<- _]].
  now apply mass_nonneg.
Qed.

Lemma mass_sum_nonneg (mu : R) :
  0 <= mu -> 0 <= Rsum (map (fun k => mass mu (Z.to_nat k)) pois_x).
Proof. intros Hmu. now apply Rsum_nonneg, masses_nonneg. Qed.

Lemma mass_sum_pos (mu : R) :
  0 <= mu <= 670 ->
  0 < Rsum (map (fun k => mass mu (Z.to_nat k)) pois_x).
Proof.
  intros Hmu. rewrite pois_x_sample_points. unfold sample_points.
  cbn [map Rsum fold_right].
  change (Z.to_nat 0) with O.
  pose proof (mass_0_pos mu Hmu) as H0.
  apply Rplus_lt_le_0_compat; [assumption |].
  apply (Rsum_nonneg (map (fun k => mass mu (Z.to_nat k)) (tl sample_points))).
  apply Forall_forall. intros x Hx.
  apply in_map_iff in Hx. destruct Hx as [k [<- _]].
  apply mass_nonneg. lra.
Qed.

(** When line 60 succeeds and the divisor is zero, every mass is zero:
    line 63 then computes [0/0], which is [nan], and never an
    infinity. *)
Lemma zero_area_zero_masses (mu n_images : R) :
  n_images <> 0 -> area_value mu n_images = Num 0 ->
  Forall (fun p => p = Num 0) (pois_pmf mu).
Proof.
  intros Hn H. destruct (Rlt_dec mu 0) as [Hneg | Hpos].
  - rewrite area_value_invalid in H by assumption. discriminate.
  - assert (Hmu : 0 <= mu) by lra.
    rewrite area_value_valid in H by assumption. apply Num_inj in H.
    apply Rmult_integral in H. destruct H as [H | H].
    + exfalso. unfold Rdiv in H. rewrite Rmult_1_l in H.
      now apply (Rinv_neq_0_compat n_images).
    + rewrite pois_pmf_valid by assumption.
      pose proof (Rsum_zero_inv _ (masses_nonneg mu Hmu) H) as Hz.
      rewrite Forall_map. rewrite Forall_forall in *.
      intros x Hx. now rewrite (Hz x Hx).
Qed.

(** ** numpy on numbers *)

Lemma div_Num (x y : R) : y <> 0 -> div (Num x) (Num y) = Num (x / y).
Proof.
  intros Hy. unfold div. destruct (Req_dec_T y 0); [contradiction | reflexivity].
Qed.

Lemma sqrt_Num (x : R) : 0 <= x -> Numpy.sqrt x = Num (R_sqrt.sqrt x).
Proof.
  intros Hx. unfold Numpy.sqrt. destruct (Rlt_dec x 0); [lra | reflexivity].
Qed.

Lemma INR_S_neq_0 (m : nat) : INR (S m) <> 0.
Proof. apply not_0_INR. discriminate. Qed.

(** [linspace] between two numbers, for at least two points. *)
Lemma linspace_Num (a b : R) (m : nat) :
  linspace (Num a) (Num b) (S (S m))
  = map (fun i => Num (a + INR i * ((b - a) / INR (S m)))) (seq 0 (S m))
      ++ [Num b].
Proof.
  unfold linspace. cbv zeta. cbn [sub lift2].
  rewrite div_Num by apply INR_S_neq_0. reflexivity.
Qed.

Lemma linspace_length (a b : R) (m : nat) :
  List.length (linspace (Num a) (Num b) (S (S m))) = S (S m).
Proof.
  rewrite linspace_Num, length_app, length_map, length_seq. simpl. lia.
Qed.

Lemma linspace_nth (a b : R) (m i : nat) :
  (i <= S m)%nat ->
  nth i (linspace (Num a) (Num b) (S (S m))) NaN
  = Num (a + INR i * ((b - a) / INR (S m))).
Proof.
  intros Hi. rewrite linspace_Num.
  set (f := fun i => Num (a + INR i * ((b - a) / INR (S m)))).
  destruct (Nat.eq_dec i (S m)) as [-> | Hne].
  - rewrite app_nth2 by (rewrite length_map, length_seq; lia).
    rewrite length_map, length_seq, Nat.sub_diag. cbn [nth].
    f_equal. field. apply INR_S_neq_0.
  - rewrite app_nth1 by (rewrite length_map, length_seq; lia).
    rewrite (nth_indep _ NaN (f O)) by (rewrite length_map, length_seq; lia).
    rewrite map_nth, seq_nth by lia. reflexivity.
Qed.

Lemma linspace_hd (a b : R) (m : nat) :
  hd NaN (linspace (Num a) (Num b) (S (S m))) = Num a.
Proof.
  rewrite linspace_Num. cbn [seq map app hd]. f_equal.
  change (INR 0) with 0. ring.
Qed.

Lemma linspace_last (a b : R) (m : nat) :
  last (linspace (Num a) (Num b) (S (S m))) NaN = Num b.
Proof. rewrite linspace_Num. apply last_last. Qed.

(** The sampled points of lines 72-74 when the square root is real. *)
Lemma gauss_x_Num (em q n_images : R) :
  0 <= n_images ->
  gauss_x em (expected_scale q n_images)
  = linspace (Num (em - 3 * (q * R_sqrt.sqrt n_images) + 3))
             (Num (em + 3 * (q * R_sqrt.sqrt n_images) + 3)) 100.
Proof.
  intros Hn. unfold gauss_x, expected_scale.
  now rewrite sqrt_Num by assumption.
Qed.

Lemma gauss_scale_Num (q n_images : R) :
  0 <= n_images ->
  gauss_scale (expected_scale q n_images)
  = Num (q * R_sqrt.sqrt n_images + 3).
Proof.
  intros Hn. unfold gauss_scale, expected_scale.
  now rewrite sqrt_Num by assumption.
Qed.

Lemma poisson_xs_Num (n_images : R) :
  n_images <> 0 ->
  poisson_xs n_images = map (fun k => Num (IZR k / n_images)) sample_points.
Proof.
  intros Hn. unfold poisson_xs. rewrite pois_x_sample_points.
  apply map_ext. intros k. now apply div_Num.
Qed.

(** ** The histogram *)

Lemma overlays_are_lines rn dark_rate n_images exposure gain sp sg :
  forallb is_line (overlays rn dark_rate n_images exposure gain sp sg) = true.
Proof. unfold overlays. now destruct sp, sg. Qed.

Lemma filter_hist_overlays rn dark_rate n_images exposure gain sp sg :
  filter is_hist (overlays rn dark_rate n_images exposure gain sp sg) = [].
Proof. unfold overlays. now destruct sp, sg. Qed.

(** C4: on every call, whatever the other arguments and whether or not
    the call later raises, the first series drawn is the histogram of the
    flattened image, with 100 bins over the range (-50, 200), density
    normalisation and the label "Dark frame"; everything drawn after it is
    a line, so it is the only histogram. *)
Theorem C4_histogram_call image rn dark_rate n_images exposure gain sp sg ax :
  exists rest,
    artists (snd (plot_dark_with_distributions image rn dark_rate n_images
                    exposure gain sp sg ax))
    = artists ax
        ++ Hist (List.concat image) 100 "mid" (-50, 200) true
             (Plain "Dark frame") :: rest
    /\ forallb is_line rest = true.
Proof.
  destruct (Req_dec_T gain 0) as [-> | Hg].
  - exists []. rewrite run_gain_zero. now split.
  - destruct (Req_dec_T n_images 0) as [-> | Hn].
    + exists []. rewrite run_n_images_zero by assumption. now split.
    + exists (overlays rn dark_rate n_images exposure gain sp sg).
      rewrite run_returns by assumption. split; [reflexivity |].
      apply overlays_are_lines.
Qed.

(** ** The expected dark counts *)

(** C5: for positive dark rate, exposure and gain, line 57 yields
    [dark_rate * exposure / gain] and draws nothing; the value is additive
    and homogeneous in the dark rate and in the exposure, is divided by [c]
    when the gain is multiplied by [c], and is the value shown in the
    Poisson label whatever the read noise and the number of images. *)
Theorem C5_expected_mean_dark (dark_rate exposure gain : R) (ax : axes) :
  0 < dark_rate -> 0 < exposure -> 0 < gain ->
  let emd := dark_rate * exposure / gain in
  expected_mean_dark dark_rate exposure gain ax = (Returned emd, ax)
  /\ (forall c, 0 < c ->
        expected_mean_dark (c * dark_rate) exposure gain ax
        = (Returned (c * emd), ax))
  /\ (forall d, 0 < d ->
        expected_mean_dark (dark_rate + d) exposure gain ax
        = (Returned (emd + d * exposure / gain), ax))
  /\ (forall c, 0 < c ->
        expected_mean_dark dark_rate (c * exposure) gain ax
        = (Returned (c * emd), ax))
  /\ (forall e, 0 < e ->
        expected_mean_dark dark_rate (exposure + e) gain ax
        = (Returned (emd + dark_rate * e / gain), ax))
  /\ (forall c, 0 < c ->
        expected_mean_dark dark_rate exposure (c * gain) ax
        = (Returned (emd / c), ax))
  /\ (forall image rn n_images sg, n_images <> 0 ->
        option_map artist_label
          (nth_error
             (artists (snd (plot_dark_with_distributions image rn dark_rate
                              n_images exposure gain true sg ax)))
             (S (List.length (artists ax))))
        = Some (Format "Poisson distribution, mean of {:5.2f} counts" emd)).
Proof.
  intros Hd He Hg emd. unfold expected_mean_dark, emd.
  repeat split.
  - apply py_div_nonzero; lra.
  - intros c Hc. rewrite py_div_nonzero by lra. do 2 f_equal. field; lra.
  - intros d Hd'. rewrite py_div_nonzero by lra. do 2 f_equal. field; lra.
  - intros c Hc. rewrite py_div_nonzero by lra. do 2 f_equal. field; lra.
  - intros e He'. rewrite py_div_nonzero by lra. do 2 f_equal. field; lra.
  - intros c Hc. rewrite py_div_nonzero by nra. do 2 f_equal. field; lra.
  - intros image rn n_images sg Hn.
    rewrite run_returns by lra. cbn [snd decorated drawn artists].
    rewrite nth_error_app2 by lia.
    replace (S (List.length (artists ax)) - List.length (artists ax))%nat with 1%nat
      by lia.
    reflexivity.
Qed.

Lemma C5_expected_mean_dark_witness :
  expected_mean_dark 2 30 4 clear = (Returned (2 * 30 / 4), clear).
Proof.
  apply (C5_expected_mean_dark 2 30 4 clear); lra.
Defined.

(** ** The overlay flags *)

Lemma run_hists image rn dark_rate n_images exposure gain sp sg ax :
  filter is_hist
    (artists (snd (plot_dark_with_distributions image rn dark_rate n_images
                     exposure gain sp sg ax)))
  = filter is_hist (artists ax) ++ [dark_frame_hist image].
Proof.
  destruct (Req_dec_T gain 0) as [-> | Hg].
  - rewrite run_gain_zero. cbn [snd drawn artists]. now rewrite filter_app.
  - destruct (Req_dec_T n_images 0) as [-> | Hn].
    + rewrite run_n_images_zero by assumption. cbn [snd drawn artists].
      now rewrite filter_app.
    + rewrite run_returns by assumption. cbn [snd decorated drawn artists].
      rewrite filter_app. cbn [filter is_hist dark_frame_hist].
      now rewrite filter_hist_overlays.
Qed.

Lemma run_labels image rn dark_rate n_images exposure gain sp sg sp' sg' ax :
  let after f g :=
    snd (plot_dark_with_distributions image rn dark_rate n_images exposure
           gain f g ax) in
  xlabel (after sp sg) = xlabel (after sp' sg')
  /\ ylabel (after sp sg) = ylabel (after sp' sg').
Proof.
  cbv beta zeta.
  destruct (Req_dec_T gain 0) as [-> | Hg].
  - now rewrite !run_gain_zero.
  - destruct (Req_dec_T n_images 0) as [-> | Hn].
    + now rewrite !run_n_images_zero by assumption.
    + now rewrite !run_returns by assumption.
Qed.

(** C6: with both overlays disabled a call draws exactly one series, the
    histogram, and no curve; and for any two settings of the flags, the
    other arguments being the same, the histogram series and the two axis
    labels of the resulting axes are the same. *)
Theorem C6_overlays_disabled image rn dark_rate n_images exposure gain ax :
  let after sp sg :=
    snd (plot_dark_with_distributions image rn dark_rate n_images exposure
           gain sp sg ax) in
  artists (after false false) = artists ax ++ [dark_frame_hist image]
  /\ forall sp sg sp' sg',
       filter is_hist (artists (after sp sg))
       = filter is_hist (artists (after sp' sg'))
       /\ xlabel (after sp sg) = xlabel (after sp' sg')
       /\ ylabel (after sp sg) = ylabel (after sp' sg').
Proof.
  cbv beta zeta. split.
  - destruct (Req_dec_T gain 0) as [-> | Hg].
    + now rewrite run_gain_zero.
    + destruct (Req_dec_T n_images 0) as [-> | Hn].
      * now rewrite run_n_images_zero by assumption.
      * now rewrite run_returns by assumption.
  - intros sp sg sp' sg'. split.
    + now rewrite !run_hists.
    + apply run_labels.
Qed.

(** ** Division by zero *)

(** C7, as stated, fails when the gain is zero as well: the division of
    line 57 raises first. *)
Lemma C7_counterexample :
  fst (plot_dark_with_distributions [[0]] 5 (1 / 10) 0 30 0 true true clear)
  = Raised (ZeroDivisionError 57)
  /\ fst (plot_dark_with_distributions [[0]] 5 (1 / 10) 0 30 0 true true clear)
     <> Raised (ZeroDivisionError 60).
Proof.
  rewrite run_gain_zero. split; [reflexivity | discriminate].
Qed.

(** C7, amended: for every call with [n_images = 0] and a non-zero gain,
    line 60 raises [ZeroDivisionError], whatever the Poisson masses; the
    call ends with that very exception, and the axes holds the histogram
    only. *)
Theorem C7_zero_images image rn dark_rate exposure gain sp sg ax :
  gain <> 0 ->
  (forall mu ax', new_area mu 0 ax' = (Raised (ZeroDivisionError 60), ax'))
  /\ plot_dark_with_distributions image rn dark_rate 0 exposure gain sp sg ax
     = (Raised (ZeroDivisionError 60), drawn ax [dark_frame_hist image]).
Proof.
  intros Hg. split.
  - intros mu ax'. unfold new_area, bind. now rewrite py_div_zero.
  - now apply run_n_images_zero.
Qed.

Lemma C7_zero_images_witness :
  plot_dark_with_distributions [[0]] 5 (1 / 10) 0 30 1 true true clear
  = (Raised (ZeroDivisionError 60), drawn clear [dark_frame_hist [[0]]]).
Proof.
  apply (C7_zero_images [[0]] 5 (1 / 10) 30 1 true true clear). lra.
Defined.

Lemma lines_57_60_outcome dark_rate n_images exposure gain ax :
  fst (lines_57_60 dark_rate n_images exposure gain ax)
  = if Req_dec_T gain 0 then Raised (ZeroDivisionError 57)
    else if Req_dec_T n_images 0 then Raised (ZeroDivisionError 60)
    else Returned
           (area_value (pois_mu (dark_rate * exposure / gain) n_images)
              n_images).
Proof.
  unfold lines_57_60, bind, expected_mean_dark.
  destruct (Req_dec_T gain 0) as [-> | Hg].
  - now rewrite py_div_zero.
  - rewrite py_div_nonzero by assumption.
    destruct (Req_dec_T n_images 0) as [-> | Hn].
    + unfold new_area, bind. now rewrite py_div_zero.
    + now rewrite new_area_nonzero.
Qed.

Lemma run_outcome image rn dark_rate n_images exposure gain sp sg ax :
  fst (plot_dark_with_distributions image rn dark_rate n_images exposure
         gain sp sg ax)
  = if Req_dec_T gain 0 then Raised (ZeroDivisionError 57)
    else if Req_dec_T n_images 0 then Raised (ZeroDivisionError 60)
    else Returned tt.
Proof.
  destruct (Req_dec_T gain 0) as [-> | Hg].
  - now rewrite run_gain_zero.
  - destruct (Req_dec_T n_images 0) as [-> | Hn].
    + now rewrite run_n_images_zero by assumption.
    + now rewrite run_returns by assumption.
Qed.

Lemma lines_57_60_value dark_rate n_images exposure gain ax :
  gain <> 0 -> n_images <> 0 ->
  lines_57_60 dark_rate n_images exposure gain ax
  = (Returned
       (Numpy.sum
          (map (fun k =>
                  mul (Num (1 / n_images))
                      (Stats.poisson_pmf
                         (dark_rate * exposure / gain - 3 * n_images) k))
               sample_points)),
     ax).
Proof.
  intros Hg Hn. unfold lines_57_60, bind, expected_mean_dark.
  rewrite py_div_nonzero by assumption.
  rewrite new_area_nonzero by assumption.
  unfold area_value, pois_pmf, pois_mu.
  now rewrite pois_x_sample_points, map_map.
Qed.

Lemma run_decomposed image rn dark_rate n_images exposure gain sp sg ax :
  plot_dark_with_distributions image rn dark_rate n_images exposure gain
    sp sg ax
  = (plt_hist (flatten image) 100 "mid" (-50, 200) true (Plain "Dark frame") ;;
     area <- lines_57_60 dark_rate n_images exposure gain ;;
     lines_62_80 rn n_images exposure gain (dark_rate * exposure / gain)
       area sp sg) ax.
Proof.
  unfold plot_dark_with_distributions, lines_57_60, lines_62_80,
    expected_mean_dark, new_area, py_div, bind, plt_hist, add_artist, ret.
  destruct (Req_dec_T gain 0); [reflexivity |].
  destruct (Req_dec_T n_images 0); reflexivity.
Qed.

(** C8: on every call, whatever the two flags, the histogram is followed
    by lines 57-60, which take no flag: the call is the histogram, then
    those lines, then the part that looks at the flags.  Whenever the gain
    and the number of images are not zero those lines yield the divisor,
    the sum over the sample points 0, 5, ..., 195 of [(1 / n_images) * pmf]
    for the Poisson distribution of mean
    [expected_mean_dark - 3 * n_images], also when both flags are false.
    Hence a call raises exactly the exception that those lines raise, for
    every setting of the flags; in particular a call with [n_images = 0]
    raises [ZeroDivisionError] with both flags false, from line 60 when
    the gain is not zero. *)
Theorem C8_divisor_unconditional image rn dark_rate n_images exposure gain
    sp sg ax :
  let run f g :=
    plot_dark_with_distributions image rn dark_rate n_images exposure gain
      f g ax in
  let call f g := fst (run f g) in
  let emd := dark_rate * exposure / gain in
  let divisor :=
    Numpy.sum
      (map (fun k =>
              mul (Num (1 / n_images))
                  (Stats.poisson_pmf (emd - 3 * n_images) k))
           sample_points) in
  run sp sg
  = (plt_hist (flatten image) 100 "mid" (-50, 200) true (Plain "Dark frame") ;;
     area <- lines_57_60 dark_rate n_images exposure gain ;;
     lines_62_80 rn n_images exposure gain emd area sp sg) ax
  /\ (gain <> 0 -> n_images <> 0 ->
      forall ax',
        lines_57_60 dark_rate n_images exposure gain ax'
        = (Returned divisor, ax'))
  /\ (forall e,
        call sp sg = Raised e
        <-> fst (lines_57_60 dark_rate n_images exposure gain ax) = Raised e)
  /\ call sp sg = call false false
  /\ (n_images = 0 -> exists l, call false false = Raised (ZeroDivisionError l))
  /\ (n_images = 0 -> gain <> 0 ->
      call false false = Raised (ZeroDivisionError 60)).
Proof.
  cbv beta zeta.
  split; [apply run_decomposed |].
  split; [intros Hg Hn ax'; now apply lines_57_60_value |].
  rewrite !run_outcome, lines_57_60_outcome.
  repeat split.
  - destruct (Req_dec_T gain 0); [now intros [= <-] |].
    destruct (Req_dec_T n_images 0);
      [now intros [= <-] | intros H; discriminate H].
  - destruct (Req_dec_T gain 0); [now intros [= <-] |].
    destruct (Req_dec_T n_images 0);
      [now intros [= <-] | intros H; discriminate H].
  - intros ->. destruct (Req_dec_T gain 0); [now exists 57%nat |].
    destruct (Req_dec_T 0 0); [now exists 60%nat | contradiction].
  - intros -> Hg. destruct (Req_dec_T gain 0); [contradiction |].
    destruct (Req_dec_T 0 0); [reflexivity | contradiction].
Qed.

Lemma C8_divisor_unconditional_witness :
  lines_57_60 1 2 30 1 clear
  = (Returned
       (Numpy.sum
          (map (fun k =>
                  mul (Num (1 / 2))
                      (Stats.poisson_pmf (1 * 30 / 1 - 3 * 2) k))
               sample_points)),
     clear)
  /\ fst (plot_dark_with_distributions [[0]] 5 (1 / 10) 0 30 1 false false
            clear)
     = Raised (ZeroDivisionError 60).
Proof.
  split.
  - apply (C8_divisor_unconditional [[0]] 5 1 2 30 1 false false clear);
      lra.
  - apply (C8_divisor_unconditional [[0]] 5 (1 / 10) 0 30 1 false false
             clear); [reflexivity | lra].
Defined.

(** ** The normalisation divisor *)

(** C10, as stated, fails for a large shape parameter.  With
    [dark_rate = 2003], [exposure = 1], [gain = 1] and [n_images = 1] the
    number of images and the shape parameter, 2000, are strictly positive,
    but each of the 40 masses is below the range of a double and is [0.0]:
    line 60 returns the divisor 0. *)
Lemma C10_counterexample :
  0 < 1
  /\ 0 < 2003 * 1 / 1 - 3 * 1
  /\ new_area (pois_mu (2003 * 1 / 1) 1) 1 clear = (Returned (Num 0), clear)
  /\ ~ (exists r,
          new_area (pois_mu (2003 * 1 / 1) 1) 1 clear
          = (Returned (Num r), clear)
          /\ 0 < r).
Proof.
  assert (Hmu : pois_mu (2003 * 1 / 1) 1 = 2000)
    by (unfold pois_mu; field).
  assert (H0 : new_area (pois_mu (2003 * 1 / 1) 1) 1 clear
               = (Returned (Num 0), clear)).
  { rewrite Hmu, new_area_nonzero by lra.
    rewrite area_value_valid by lra.
    rewrite pois_x_sample_points, Rsum_zero.
    - do 3 f_equal. field.
    - rewrite Forall_map. exact masses_2000_underflow. }
  split; [lra |]. split; [lra |]. split; [exact H0 |].
  intros [r [Hr Hpos]]. rewrite H0 in Hr.
  injection Hr as Hr. lra.
Qed.

(** C10, amended: for a positive number of images and a positive Poisson
    shape parameter [expected_mean_dark - 3 * n_images], line 60 returns a
    number, the sum over the sample points 0, 5, ..., 195 of
    [(1 / n_images) * pmf]; that number is never negative, and it is
    strictly positive when the shape parameter is at most 670, where the
    mass at 0 is still a positive double. *)
Theorem C10_divisor_positive (emd n_images : R) (ax : axes) :
  0 < n_images -> 0 < emd - 3 * n_images ->
  exists r,
    new_area (pois_mu emd n_images) n_images ax = (Returned (Num r), ax)
    /\ Num r
       = Numpy.sum
           (map (fun k =>
                   mul (Num (1 / n_images))
                       (Stats.poisson_pmf (emd - 3 * n_images) k))
                sample_points)
    /\ 0 <= r
    /\ (emd - 3 * n_images <= 670 -> 0 < r).
Proof.
  intros Hn Hmu.
  exists (1 / n_images
          * Rsum (map (fun k => mass (pois_mu emd n_images) (Z.to_nat k))
                      pois_x)).
  assert (Hmu' : 0 <= pois_mu emd n_images) by (unfold pois_mu; lra).
  assert (Hinv : 0 < 1 / n_images) by (apply Rdiv_lt_0_compat; lra).
  split; [| split; [| split]].
  - rewrite new_area_nonzero by lra. now rewrite area_value_valid.
  - rewrite <- area_value_valid by assumption.
    unfold area_value, pois_pmf. now rewrite map_map.
  - apply Rmult_le_pos; [lra | now apply mass_sum_nonneg].
  - intros Hhi. apply Rmult_lt_0_compat; [assumption |].
    apply mass_sum_pos. unfold pois_mu. lra.
Qed.

Lemma C10_divisor_positive_witness :
  exists r,
    new_area (pois_mu 10 2) 2 clear = (Returned (Num r), clear)
    /\ Num r
       = Numpy.sum
           (map (fun k =>
                   mul (Num (1 / 2)) (Stats.poisson_pmf (10 - 3 * 2) k))
                sample_points)
    /\ 0 <= r
    /\ (10 - 3 * 2 <= 670 -> 0 < r).
Proof.
  apply (C10_divisor_positive 10 2 clear); lra.
Defined.

(** ** The Poisson overlay *)

(** C1: when [show_poisson] is true and the call returns (non-zero gain
    and number of images), the series drawn right after the histogram is
    one line: its abscissas are the sample points 0, 5, ..., 195 divided by
    [n_images], its ordinates the Poisson masses of mean
    [expected_mean_dark - 3 * n_images] at those points divided by the sum
    over the points of [(1 / n_images) * pmf], and its label the format
    template with [{:5.2f}] applied to the expected mean. *)
Theorem C1_poisson_overlay image rn dark_rate n_images exposure gain sg ax :
  gain <> 0 -> n_images <> 0 ->
  let emd := dark_rate * exposure / gain in
  let pmf := Stats.poisson_pmf (emd - 3 * n_images) in
  let divisor :=
    Numpy.sum
      (map (fun k => mul (Num (1 / n_images)) (pmf k)) sample_points) in
  artists (snd (plot_dark_with_distributions image rn dark_rate n_images
                  exposure gain true sg ax))
  = artists ax
      ++ dark_frame_hist image
      :: Line (map (fun k => Num (IZR k / n_images)) sample_points)
              (map (fun k => div (pmf k) divisor) sample_points)
              (Format "Poisson distribution, mean of {:5.2f} counts" emd)
      :: (if sg then [gaussian_curve rn gain emd n_images] else []).
Proof.
  intros Hg Hn emd pmf divisor.
  rewrite run_returns by assumption.
  cbn [snd decorated drawn artists]. unfold overlays.
  cbn [app]. fold emd. do 3 f_equal.
  unfold poisson_curve. rewrite poisson_xs_Num by assumption.
  unfold poisson_ys, area_value, pois_pmf, pois_mu.
  rewrite pois_x_sample_points, !map_map. reflexivity.
Qed.

Lemma C1_poisson_overlay_witness :
  nth_error
    (artists (snd (plot_dark_with_distributions [[0]] 5 1 2 30 1 true false
                     clear))) 1
  = Some
      (let pmf := Stats.poisson_pmf (1 * 30 / 1 - 3 * 2) in
       Line (map (fun k => Num (IZR k / 2)) sample_points)
            (map (fun k =>
                    div (pmf k)
                        (Numpy.sum
                           (map (fun j => mul (Num (1 / 2)) (pmf j))
                                sample_points)))
                 sample_points)
            (Format "Poisson distribution, mean of {:5.2f} counts"
                    (1 * 30 / 1))).
Proof.
  rewrite (C1_poisson_overlay [[0]] 5 1 2 30 1 false clear); [| lra | lra].
  reflexivity.
Defined.

(** ** The Gaussian overlay *)

Lemma gauss_x_of_Num (em s : R) :
  gauss_x em (Num s)
  = linspace (Num (em - 3 * s + 3)) (Num (em + 3 * s + 3)) 100.
Proof. reflexivity. Qed.

Lemma run_gaussian_artists image rn dark_rate n_images exposure gain sp ax :
  gain <> 0 -> 0 < n_images ->
  let emd := dark_rate * exposure / gain in
  let xs := gauss_x (emd * n_images)
                    (Num (rn / gain * R_sqrt.sqrt n_images)) in
  artists (snd (plot_dark_with_distributions image rn dark_rate n_images
                  exposure gain sp true ax))
  = artists ax
      ++ dark_frame_hist image
      :: (if sp then [poisson_curve emd n_images] else [])
      ++ [Line (gaussian_xs xs n_images)
               (gaussian_ys (emd * n_images - 3)
                  (Num (rn / gain * R_sqrt.sqrt n_images + 3)) xs n_images)
               gaussian_label].
Proof.
  intros Hg Hn emd xs.
  rewrite run_returns by lra.
  cbn [snd decorated drawn artists]. unfold overlays. fold emd.
  do 3 f_equal. unfold gaussian_curve.
  rewrite gauss_scale_Num by lra.
  unfold expected_scale. rewrite sqrt_Num by lra. reflexivity.
Qed.

(** C3: when [show_gaussian] is true and the call returns, with a positive
    number of images, the last series drawn is the line of the pairs
    [(x / n_images, pdf x * n_images)] over the sampled points, where [pdf]
    is the normal density of mean [expected_mean_dark * n_images - 3] and
    standard deviation [rn / gain * sqrt n_images + 3], labelled
    "Gaussian, standard dev is read noise in counts". *)
Theorem C3_gaussian_overlay image rn dark_rate n_images exposure gain sp ax :
  gain <> 0 -> 0 < n_images ->
  let emd := dark_rate * exposure / gain in
  let mean := emd * n_images - 3 in
  let scale := rn / gain * R_sqrt.sqrt n_images + 3 in
  let xs := gauss_x (emd * n_images)
                    (Num (rn / gain * R_sqrt.sqrt n_images)) in
  artists (snd (plot_dark_with_distributions image rn dark_rate n_images
                  exposure gain sp true ax))
  = artists ax
      ++ dark_frame_hist image
      :: (if sp then [poisson_curve emd n_images] else [])
      ++ [Line (map (fun x => div x (Num n_images)) xs)
               (map (fun x =>
                       mul (Stats.norm_pdf mean (Num scale) x)
                           (Num n_images)) xs)
               (Plain "Gaussian, standard dev is read noise in counts")].
Proof.
  intros Hg Hn emd mean scale xs.
  exact (run_gaussian_artists image rn dark_rate n_images exposure gain sp ax
           Hg Hn).
Qed.

Lemma C3_gaussian_overlay_witness :
  artists (snd (plot_dark_with_distributions [[0]] 5 1 2 30 1 false true
                  clear))
  = [dark_frame_hist [[0]];
     let xs := gauss_x (1 * 30 / 1 * 2) (Num (5 / 1 * R_sqrt.sqrt 2)) in
     Line (map (fun x => div x (Num 2)) xs)
          (map (fun x =>
                  mul (Stats.norm_pdf (1 * 30 / 1 * 2 - 3)
                         (Num (5 / 1 * R_sqrt.sqrt 2 + 3)) x)
                      (Num 2)) xs)
          (Plain "Gaussian, standard dev is read noise in counts")].
Proof.
  apply (C3_gaussian_overlay [[0]] 5 1 2 30 1 false clear); lra.
Defined.

(** ** The concrete scenario *)

Lemma scenario_expected_mean_dark : 1 / 10 * 30 / 1 = 3.
Proof. field. Qed.

Lemma scenario_expected_scale : expected_scale (5 / 1) 1 = Num 5.
Proof.
  unfold expected_scale. rewrite sqrt_Num by lra. rewrite sqrt_1.
  cbn [mul lift2]. f_equal. field.
Qed.

(** C9: with [rn = 5], [dark_rate = 1/10], [exposure = 30], [gain = 1]
    and [n_images = 1], line 57 yields 3, the Poisson shape parameter is
    0, the normal distribution has scale 8 and mean 0, and these are the
    values the two curves are drawn with; with [n_images = 4] the expected
    mean is still 3 and the Poisson shape parameter is -9. *)
Theorem C9_concrete_scenario (image : list (list R)) (ax : axes) :
  expected_mean_dark (1 / 10) 30 1 ax = (Returned 3, ax)
  /\ pois_mu 3 1 = 0
  /\ gauss_scale (expected_scale (5 / 1) 1) = Num 8
  /\ gauss_loc (expected_mean 3 1) = 0
  /\ artists (snd (plot_dark_with_distributions image 5 (1 / 10) 1 30 1
                     true true ax))
     = artists ax
         ++ [dark_frame_hist image;
             Line (poisson_xs 1) (poisson_ys 0 (area_value 0 1))
                  (poisson_label 3);
             Line (gaussian_xs (gauss_x 3 (Num 5)) 1)
                  (gaussian_ys 0 (Num 8) (gauss_x 3 (Num 5)) 1)
                  gaussian_label]
  /\ pois_mu 3 4 = -9
  /\ artists (snd (plot_dark_with_distributions image 5 (1 / 10) 4 30 1
                     true false ax))
     = artists ax
         ++ [dark_frame_hist image;
             Line (poisson_xs 4) (poisson_ys (-9) (area_value (-9) 4))
                  (poisson_label 3)].
Proof.
  assert (Hmu1 : pois_mu 3 1 = 0) by (unfold pois_mu; ring).
  assert (Hmu4 : pois_mu 3 4 = -9) by (unfold pois_mu; ring).
  assert (Hsc : gauss_scale (expected_scale (5 / 1) 1) = Num 8).
  { rewrite scenario_expected_scale. cbn. f_equal. ring. }
  assert (Hem : expected_mean 3 1 = 3) by (unfold expected_mean; ring).
  assert (Hloc : gauss_loc (expected_mean 3 1) = 0).
  { rewrite Hem. unfold gauss_loc. ring. }
  repeat split; try assumption.
  - unfold expected_mean_dark. rewrite py_div_nonzero by lra.
    now rewrite scenario_expected_mean_dark.
  - rewrite run_returns by lra.
    cbn [snd decorated drawn artists]. unfold overlays.
    rewrite scenario_expected_mean_dark. cbn [app].
    unfold poisson_curve, gaussian_curve.
    rewrite Hmu1, Hsc, Hloc, Hem, scenario_expected_scale. reflexivity.
  - rewrite run_returns by lra.
    cbn [snd decorated drawn artists]. unfold overlays.
    rewrite scenario_expected_mean_dark. cbn [app].
    unfold poisson_curve. rewrite Hmu4. reflexivity.
Qed.

(** With the negative shape parameter of the second scenario, scipy
    returns [nan] for every mass: the divisor and the whole curve are
    [nan]. *)
Lemma scenario_four_images_nan :
  area_value (-9) 4 = NaN
  /\ poisson_ys (-9) (area_value (-9) 4) = map (fun _ => NaN) sample_points.
Proof.
  split.
  - apply area_value_invalid. lra.
  - unfold poisson_ys, pois_pmf. rewrite map_map, pois_x_sample_points.
    apply map_ext. intros k. now rewrite poisson_pmf_invalid by lra.
Qed.

(** ** The Gaussian sample points *)

(** C2, as stated, fails.  In the scenario [rn = 5], [dark_rate = 1/10],
    [exposure = 30], [gain = 1], [n_images = 1] the distribution has mean
    0 and scale 8, so the claim has the points run from -24 to 24; lines
    72-74 sample from -9 to 21, and these two ends are not equidistant
    from [mean - 3 = -3], nor from the mean. *)
Lemma C2_counterexample :
  let mean := 1 / 10 * 30 / 1 * 1 - 3 in
  let scale := 5 / 1 * R_sqrt.sqrt 1 + 3 in
  let xs := gauss_x (expected_mean (1 / 10 * 30 / 1) 1)
                    (expected_scale (5 / 1) 1) in
  nth_error
    (artists (snd (plot_dark_with_distributions [[0]] 5 (1 / 10) 1 30 1
                     false true clear))) 1
  = Some (Line (gaussian_xs xs 1)
               (gaussian_ys (gauss_loc (expected_mean (1 / 10 * 30 / 1) 1))
                            (gauss_scale (expected_scale (5 / 1) 1)) xs 1)
               gaussian_label)
  /\ hd NaN xs = Num (-9) /\ last xs NaN = Num 21
  /\ mean - 3 * scale = -24 /\ mean + 3 * scale = 24
  /\ xs <> linspace (Num (mean - 3 * scale)) (Num (mean + 3 * scale)) 100
  /\ 21 - (mean - 3) <> (mean - 3) - (-9)
  /\ 21 - mean <> mean - (-9).
Proof.
  cbv zeta.
  assert (Hxs : gauss_x (expected_mean (1 / 10 * 30 / 1) 1)
                        (expected_scale (5 / 1) 1)
                = linspace (Num (-9)) (Num 21) 100).
  { rewrite scenario_expected_scale. unfold gauss_x, expected_mean.
    cbn [add sub mul lift2]. f_equal; f_equal; field. }
  rewrite sqrt_1.
  split; [| split; [| split; [| split; [| split; [| split; [| split]]]]]].
  - rewrite run_returns by lra. reflexivity.
  - rewrite Hxs. apply linspace_hd.
  - rewrite Hxs. apply linspace_last.
  - field.
  - field.
  - rewrite Hxs. intros H. apply (f_equal (hd NaN)) in H.
    rewrite !linspace_hd in H. apply Num_inj in H. lra.
  - lra.
  - lra.
Qed.

(** C2, amended: when the call returns, with a positive number of images,
    the Gaussian curve is drawn over 100 equally spaced points running from
    [m - 3 * s + 3] to [m + 3 * s + 3], where
    [m = expected_mean_dark * n_images] and
    [s = rn / gain * sqrt n_images] are the mean and scale before the
    offsets of line 71 are applied.  In terms of the distribution's
    [mean = m - 3] and [scale = s + 3] the range is
    [mean - 3 * scale + 15 .. mean + 3 * scale - 3]: its ends are
    equidistant from [mean + 6], not from the mean. *)
Theorem C2_gaussian_sample_points image rn dark_rate n_images exposure gain
    sp ax :
  gain <> 0 -> 0 < n_images ->
  let m := dark_rate * exposure / gain * n_images in
  let s := rn / gain * R_sqrt.sqrt n_images in
  let mean := m - 3 in
  let scale := s + 3 in
  let lo := m - 3 * s + 3 in
  let hi := m + 3 * s + 3 in
  let xs := linspace (Num lo) (Num hi) 100 in
  last (artists (snd (plot_dark_with_distributions image rn dark_rate
                        n_images exposure gain sp true ax)))
       (dark_frame_hist image)
  = Line (map (fun x => div x (Num n_images)) xs)
         (map (fun x =>
                 mul (Stats.norm_pdf mean (Num scale) x) (Num n_images)) xs)
         gaussian_label
  /\ List.length xs = 100%nat
  /\ (forall i, (i < 100)%nat ->
        nth i xs NaN = Num (lo + INR i * ((hi - lo) / 99)))
  /\ hd NaN xs = Num lo
  /\ last xs NaN = Num hi
  /\ lo = mean - 3 * scale + 15
  /\ hi = mean + 3 * scale - 3
  /\ hi - (mean + 6) = (mean + 6) - lo.
Proof.
  intros Hg Hn m s mean scale lo hi xs.
  split; [| split; [| split; [| split; [| split; [| split; [| split]]]]]].
  - rewrite (run_gaussian_artists image rn dark_rate n_images exposure gain
               sp ax Hg Hn).
    rewrite app_comm_cons, app_assoc, last_last.
    now rewrite gauss_x_of_Num.
  - apply linspace_length.
  - intros i Hi. unfold xs. rewrite linspace_nth by lia.
    do 3 f_equal. simpl. lra.
  - apply linspace_hd.
  - apply linspace_last.
  - unfold lo, mean, scale. ring.
  - unfold hi, mean, scale. ring.
  - unfold lo, hi, mean. ring.
Qed.

Lemma C2_gaussian_sample_points_witness :
  let m := 1 * 30 / 1 * 2 in
  let s := 5 / 1 * R_sqrt.sqrt 2 in
  let xs := linspace (Num (m - 3 * s + 3)) (Num (m + 3 * s + 3)) 100 in
  last (artists (snd (plot_dark_with_distributions [[0]] 5 1 2 30 1
                        false true clear)))
       (dark_frame_hist [[0]])
  = Line (map (fun x => div x (Num 2)) xs)
         (map (fun x =>
                 mul (Stats.norm_pdf (m - 3) (Num (s + 3)) x) (Num 2)) xs)
         gaussian_label.
Proof.
  apply (C2_gaussian_sample_points [[0]] 5 1 2 30 1 false clear); lra.
Defined.

(** * Further properties of the function *)

(** ** How a call ends *)

Lemma show_gaussian_branch_returns rn gain emd n_images ax :
  gain <> 0 ->
  fst (show_gaussian_branch rn gain emd n_images ax) = Returned tt.
Proof.
  intros Hg. unfold show_gaussian_branch, bind.
  now rewrite py_div_nonzero by assumption.
Qed.

(** The only exceptions a call can end with are the [ZeroDivisionError]s
    of line 57 (exactly when the gain is zero) and of line 60 (exactly when
    the gain is not zero and the number of images is); the division
    [rn / gain] of line 68 never raises, because a call that reaches it has
    already divided by the gain; and the call returns exactly when both the
    gain and the number of images are non-zero. *)
Theorem call_outcomes image rn dark_rate n_images exposure gain sp sg ax :
  let call :=
    fst (plot_dark_with_distributions image rn dark_rate n_images exposure
           gain sp sg ax) in
  (call = Raised (ZeroDivisionError 57) <-> gain = 0)
  /\ (call = Raised (ZeroDivisionError 60) <-> gain <> 0 /\ n_images = 0)
  /\ (call = Returned tt <-> gain <> 0 /\ n_images <> 0)
  /\ (forall l, l <> 57%nat -> l <> 60%nat ->
        call <> Raised (ZeroDivisionError l)).
Proof.
  cbv zeta. rewrite run_outcome.
  destruct (Req_dec_T gain 0) as [Hg | Hg];
    [| destruct (Req_dec_T n_images 0) as [Hn | Hn]];
    repeat split; intros; try discriminate; try tauto; try congruence.
Qed.

(** A call that raises leaves the axes with the histogram drawn and
    nothing else changed: no curve, and the axis labels, the grid and the
    legend as they were before the call. *)
Theorem raising_call_leaves_histogram image rn dark_rate n_images exposure
    gain sp sg ax e :
  fst (plot_dark_with_distributions image rn dark_rate n_images exposure
         gain sp sg ax) = Raised e ->
  let ax' :=
    snd (plot_dark_with_distributions image rn dark_rate n_images exposure
           gain sp sg ax) in
  artists ax' = artists ax ++ [dark_frame_hist image]
  /\ xlabel ax' = xlabel ax
  /\ ylabel ax' = ylabel ax
  /\ grid_on ax' = grid_on ax
  /\ legend_on ax' = legend_on ax.
Proof.
  cbv zeta. rewrite run_outcome.
  destruct (Req_dec_T gain 0) as [-> | Hg].
  - intros _. now rewrite run_gain_zero.
  - destruct (Req_dec_T n_images 0) as [-> | Hn].
    + intros _. now rewrite run_n_images_zero by assumption.
    + discriminate.
Qed.

Lemma raising_call_leaves_histogram_witness :
  artists
    (snd (plot_dark_with_distributions [[1; 2]] 5 1 0 30 1 true true clear))
  = [dark_frame_hist [[1; 2]]].
Proof.
  apply (raising_call_leaves_histogram [[1; 2]] 5 1 0 30 1 true true clear
           (ZeroDivisionError 60)).
  rewrite run_n_images_zero by lra. reflexivity.
Defined.

(** A call that returns keeps every series that was on the axes, in
    order, and adds after them the histogram and one curve per enabled
    overlay, the Poisson curve before the Gaussian one; it replaces both
    axis labels, the x label being the format template applied to the
    exposure, turns the legend on and toggles the grid. *)
Theorem returning_call_axes image rn dark_rate n_images exposure gain sp sg
    ax :
  gain <> 0 -> n_images <> 0 ->
  let ax' :=
    snd (plot_dark_with_distributions image rn dark_rate n_images exposure
           gain sp sg ax) in
  firstn (List.length (artists ax)) (artists ax') = artists ax
  /\ List.length (artists ax')
     = (List.length (artists ax) + 1
        + (if sp then 1 else 0) + (if sg then 1 else 0))%nat
  /\ map artist_label (skipn (List.length (artists ax)) (artists ax'))
     = Plain "Dark frame"
       :: (if sp
           then [Format "Poisson distribution, mean of {:5.2f} counts"
                        (dark_rate * exposure / gain)]
           else [])
       ++ (if sg
           then [Plain "Gaussian, standard dev is read noise in counts"]
           else [])
  /\ xlabel ax' = Some (Format "Dark counts in {} sec exposure" exposure)
  /\ ylabel ax' = Some (Plain "Fraction of pixels (area normalized to 1)")
  /\ legend_on ax' = true
  /\ grid_on ax' = negb (grid_on ax).
Proof.
  intros Hg Hn. cbv zeta. rewrite run_returns by assumption.
  cbn [snd decorated drawn artists xlabel ylabel legend_on grid_on].
  repeat split.
  - rewrite firstn_app, Nat.sub_diag, firstn_all. cbn [firstn].
    apply app_nil_r.
  - rewrite length_app. unfold overlays. destruct sp, sg; simpl; lia.
  - rewrite skipn_app, Nat.sub_diag, skipn_all. unfold overlays.
    now destruct sp, sg.
Qed.

Lemma returning_call_axes_witness :
  List.length
    (artists
       (snd (plot_dark_with_distributions [[1; 2]] 5 1 2 30 1 true false
               clear)))
  = (List.length (artists clear) + 1 + 1 + 0)%nat.
Proof.
  apply (returning_call_axes [[1; 2]] 5 1 2 30 1 true false clear); lra.
Defined.

(** Two calls in a row on the same axes, both returning: the second call
    draws after the first, so the axes holds two histograms, and because
    [plt.grid()] toggles, the grid is back in the state it had before the
    first call. *)
Theorem two_calls_toggle_grid image rn dark_rate n_images exposure gain
    sp sg image' rn' dark_rate' n_images' exposure' gain' sp' sg' ax :
  gain <> 0 -> n_images <> 0 -> gain' <> 0 -> n_images' <> 0 ->
  let both :=
    (plot_dark_with_distributions image rn dark_rate n_images exposure gain
       sp sg ;;
     plot_dark_with_distributions image' rn' dark_rate' n_images' exposure'
       gain' sp' sg') ax in
  fst both = Returned tt
  /\ grid_on (snd both) = grid_on ax
  /\ filter is_hist (artists (snd both))
     = filter is_hist (artists ax)
         ++ [dark_frame_hist image; dark_frame_hist image']
  /\ xlabel (snd both)
     = Some (Format "Dark counts in {} sec exposure" exposure').
Proof.
  intros Hg Hn Hg' Hn'. cbv zeta. unfold bind.
  rewrite (run_returns image) by assumption.
  pose proof (run_hists image' rn' dark_rate' n_images' exposure' gain'
                sp' sg'
                (decorated
                   (drawn ax (dark_frame_hist image
                                :: overlays rn dark_rate n_images exposure
                                     gain sp sg)) exposure)) as Hh.
  rewrite (run_returns image') in * by assumption.
  cbn [fst snd decorated drawn artists grid_on xlabel] in *.
  repeat split.
  - apply negb_involutive.
  - rewrite Hh, filter_app. cbn [filter is_hist dark_frame_hist].
    rewrite filter_hist_overlays, <- app_assoc. reflexivity.
Qed.

Lemma two_calls_toggle_grid_witness :
  grid_on
    (snd ((plot_dark_with_distributions [[1]] 5 1 1 30 1 true true ;;
           plot_dark_with_distributions [[2]] 5 1 1 30 1 true true) clear))
  = grid_on clear.
Proof.
  apply (two_calls_toggle_grid [[1]] 5 1 1 30 1 true true
           [[2]] 5 1 1 30 1 true true clear); lra.
Defined.

(** With the keyword defaults ([n_images = 1], [exposure = 1], [gain = 1],
    both overlays shown) a call never raises, whatever the image, the read
    noise and the dark rate, and draws three series; the Poisson shape
    parameter is then [dark_rate - 3]. *)
Theorem default_call_returns image rn dark_rate ax :
  fst (plot_dark_with_distributions_default image rn dark_rate ax)
  = Returned tt
  /\ artists (snd (plot_dark_with_distributions_default image rn dark_rate ax))
     = artists ax
         ++ [dark_frame_hist image;
             Line (poisson_xs 1)
                  (poisson_ys (dark_rate - 3) (area_value (dark_rate - 3) 1))
                  (poisson_label dark_rate);
             gaussian_curve rn 1 dark_rate 1].
Proof.
  unfold plot_dark_with_distributions_default.
  rewrite run_returns by lra. split; [reflexivity |].
  cbn [snd decorated drawn artists]. unfold overlays. cbn [app].
  replace (dark_rate * 1 / 1) with dark_rate by field.
  unfold poisson_curve, pois_mu.
  replace (dark_rate - 3 * 1) with (dark_rate - 3) by ring.
  reflexivity.
Qed.

(** ** The Poisson curve *)

Lemma run_poisson_curve image rn dark_rate n_images exposure gain sg ax :
  gain <> 0 -> n_images <> 0 ->
  nth_error
    (artists (snd (plot_dark_with_distributions image rn dark_rate n_images
                     exposure gain true sg ax)))
    (S (List.length (artists ax)))
  = Some (poisson_curve (dark_rate * exposure / gain) n_images).
Proof.
  intros Hg Hn. rewrite run_returns by assumption.
  cbn [snd decorated drawn artists].
  rewrite nth_error_app2 by lia.
  replace (S (List.length (artists ax)) - List.length (artists ax))%nat
    with 1%nat by lia.
  reflexivity.
Qed.

Lemma Rsum_div (c : R) (l : list R) :
  Rsum (map (fun x => x / c) l) = Rsum l / c.
Proof.
  induction l as [| x l IH]; simpl.
  - unfold Rdiv. ring.
  - rewrite IH. unfold Rdiv. ring.
Qed.

Lemma Rsum_in_le (l : list R) (x : R) :
  Forall (fun y => 0 <= y) l -> In x l -> x <= Rsum l.
Proof.
  induction 1 as [| y l Hy Hl IH]; intros Hin; [contradiction |].
  pose proof (Rsum_nonneg l Hl) as Hs.
  destruct Hin as [-> | Hin]; simpl.
  - lra.
  - specialize (IH Hin). lra.
Qed.

(** The ordinates of the Poisson curve as real numbers, for a shape
    parameter between 0 and 670. *)
Lemma poisson_ys_valid (mu n_images : R) :
  0 <= mu <= 670 -> n_images <> 0 ->
  let total := Rsum (map (fun k => mass mu (Z.to_nat k)) pois_x) in
  poisson_ys mu (area_value mu n_images)
  = map Num
      (map (fun p => p / (1 / n_images * total))
           (map (fun k => mass mu (Z.to_nat k)) pois_x)).
Proof.
  intros Hmu Hn total. unfold poisson_ys.
  rewrite area_value_valid, pois_pmf_valid by lra. fold total.
  rewrite !map_map. apply map_ext. intros k.
  apply div_Num.
  pose proof (mass_sum_pos mu Hmu) as Hs. fold total in Hs.
  apply Rmult_integral_contrapositive. split; [| lra].
  unfold Rdiv. rewrite Rmult_1_l. now apply Rinv_neq_0_compat.
Qed.

(** The Poisson curve is normalised over its own sample points: for a
    shape parameter between 0 and 670, the ordinates of the curve the call
    draws, each weighted by [1 / n_images], add up to 1 (so the ordinates
    themselves add up to [n_images]), whatever the expected mean. *)
Theorem poisson_curve_normalised image rn dark_rate n_images exposure gain
    sg ax :
  gain <> 0 -> n_images <> 0 ->
  0 <= dark_rate * exposure / gain - 3 * n_images <= 670 ->
  exists xs ys lbl,
    nth_error
      (artists (snd (plot_dark_with_distributions image rn dark_rate
                       n_images exposure gain true sg ax)))
      (S (List.length (artists ax)))
    = Some (Line xs ys lbl)
    /\ Numpy.sum (map (mul (Num (1 / n_images))) ys) = Num 1
    /\ Numpy.sum ys = Num n_images.
Proof.
  intros Hg Hn Hmu.
  rewrite run_poisson_curve by assumption. unfold poisson_curve.
  set (mu := pois_mu (dark_rate * exposure / gain) n_images).
  assert (Hmu' : 0 <= mu <= 670) by (unfold mu, pois_mu; lra).
  do 3 eexists. split; [reflexivity |].
  rewrite poisson_ys_valid by assumption. cbv zeta.
  set (masses := map (fun k => mass mu (Z.to_nat k)) pois_x).
  pose proof (mass_sum_pos mu Hmu') as Hs. fold masses in Hs.
  split.
  - rewrite map_map. cbn [mul lift2].
    rewrite <- (map_map (Rmult (1 / n_images)) Num).
    rewrite sum_Num, Rsum_scale, Rsum_div. f_equal. field. split; lra.
  - rewrite sum_Num, Rsum_div. f_equal. field. split; lra.
Qed.

Lemma poisson_curve_normalised_witness :
  exists xs ys lbl,
    nth_error
      (artists (snd (plot_dark_with_distributions [[1]] 5 1 2 30 1 true
                       false clear))) 1
    = Some (Line xs ys lbl)
    /\ Numpy.sum (map (mul (Num (1 / 2))) ys) = Num 1
    /\ Numpy.sum ys = Num 2.
Proof.
  apply (poisson_curve_normalised [[1]] 5 1 2 30 1 false clear); lra.
Defined.

(** For a positive number of images and a shape parameter between 0 and
    670, every ordinate of the Poisson curve the call draws is a number
    between 0 and [n_images]. *)
Theorem poisson_ordinates_bounded image rn dark_rate n_images exposure gain
    sg ax :
  gain <> 0 -> 0 < n_images ->
  0 <= dark_rate * exposure / gain - 3 * n_images <= 670 ->
  exists xs ys lbl,
    nth_error
      (artists (snd (plot_dark_with_distributions image rn dark_rate
                       n_images exposure gain true sg ax)))
      (S (List.length (artists ax)))
    = Some (Line xs ys lbl)
    /\ Forall (fun y => exists v, y = Num v /\ 0 <= v <= n_images) ys.
Proof.
  intros Hg Hn Hmu.
  rewrite run_poisson_curve by lra. unfold poisson_curve.
  set (mu := pois_mu (dark_rate * exposure / gain) n_images).
  assert (Hmu' : 0 <= mu <= 670) by (unfold mu, pois_mu; lra).
  do 3 eexists. split; [reflexivity |].
  rewrite poisson_ys_valid by lra. cbv zeta.
  set (masses := map (fun k => mass mu (Z.to_nat k)) pois_x).
  pose proof (mass_sum_pos mu Hmu') as Hs. fold masses in Hs.
  pose proof (masses_nonneg mu (proj1 Hmu')) as Hnn. fold masses in Hnn.
  rewrite map_map. apply Forall_forall. intros y Hy.
  apply in_map_iff in Hy. destruct Hy as [p [<- Hp]].
  exists (p / (1 / n_images * Rsum masses)). split; [reflexivity |].
  pose proof (Rsum_in_le masses p Hnn Hp) as Hle.
  rewrite Forall_forall in Hnn. specialize (Hnn p Hp).
  replace (p / (1 / n_images * Rsum masses))
    with (n_images * (p / Rsum masses)) by (field; lra).
  assert (Hq : 0 <= p / Rsum masses <= 1).
  { split.
    - apply Rmult_le_pos; [assumption |].
      left. now apply Rinv_0_lt_compat.
    - apply (Rmult_le_reg_r (Rsum masses)); [assumption |].
      unfold Rdiv. rewrite Rmult_assoc, Rinv_l by lra. lra. }
  split; nra.
Qed.

Lemma poisson_ordinates_bounded_witness :
  exists xs ys lbl,
    nth_error
      (artists (snd (plot_dark_with_distributions [[1]] 5 1 2 30 1 true
                       false clear))) 1
    = Some (Line xs ys lbl)
    /\ Forall (fun y => exists v, y = Num v /\ 0 <= v <= 2) ys.
Proof.
  apply (poisson_ordinates_bounded [[1]] 5 1 2 30 1 false clear); lra.
Defined.

(** When the expected mean is below [3 * n_images] the shape parameter
    given to [stats.poisson] is negative: the call still returns, and the
    Poisson curve it draws consists of [nan] ordinates only. *)
Theorem negative_mean_draws_nan image rn dark_rate n_images exposure gain
    sg ax :
  gain <> 0 -> n_images <> 0 ->
  dark_rate * exposure / gain < 3 * n_images ->
  fst (plot_dark_with_distributions image rn dark_rate n_images exposure
         gain true sg ax) = Returned tt
  /\ nth_error
       (artists (snd (plot_dark_with_distributions image rn dark_rate
                        n_images exposure gain true sg ax)))
       (S (List.length (artists ax)))
     = Some (Line (map (fun k => Num (IZR k / n_images)) sample_points)
                  (map (fun _ => NaN) sample_points)
                  (poisson_label (dark_rate * exposure / gain))).
Proof.
  intros Hg Hn Hmu. split.
  - now rewrite run_returns.
  - rewrite run_poisson_curve by assumption. unfold poisson_curve.
    rewrite poisson_xs_Num by assumption. do 2 f_equal.
    unfold poisson_ys, pois_pmf.
    rewrite map_map, pois_x_sample_points.
    apply map_ext. intros k.
    rewrite poisson_pmf_invalid by (unfold pois_mu; lra). reflexivity.
Qed.

Lemma negative_mean_draws_nan_witness :
  fst (plot_dark_with_distributions [[1]] 5 1 1 1 1 true true clear)
  = Returned tt.
Proof.
  apply (negative_mean_draws_nan [[1]] 5 1 1 1 1 true clear); lra.
Defined.

(** ** The Gaussian curve *)

Lemma run_gaussian_curve image rn dark_rate n_images exposure gain sp ax d :
  gain <> 0 -> n_images <> 0 ->
  last (artists (snd (plot_dark_with_distributions image rn dark_rate
                        n_images exposure gain sp true ax))) d
  = gaussian_curve rn gain (dark_rate * exposure / gain) n_images.
Proof.
  intros Hg Hn. rewrite run_returns by assumption.
  cbn [snd decorated drawn artists]. unfold overlays.
  rewrite app_comm_cons, app_assoc. apply last_last.
Qed.

Lemma Line_inj xs ys lbl xs' ys' lbl' :
  Line xs ys lbl = Line xs' ys' lbl' -> xs = xs' /\ ys = ys' /\ lbl = lbl'.
Proof. intros H. inversion H. auto. Qed.

Lemma linspace_100_length (a b : npfloat) :
  List.length (linspace a b 100) = 100%nat.
Proof.
  unfold linspace. rewrite length_app, length_map, length_seq. reflexivity.
Qed.

Lemma pois_x_length : List.length pois_x = 40%nat.
Proof. reflexivity. Qed.

(** Every curve a returning call draws has as many abscissas as
    ordinates, so [plt.plot] is never given arrays of different lengths:
    40 points for the Poisson curve and 100 for the Gaussian one, also
    when the values are [nan]. *)
Theorem curves_have_matching_lengths image rn dark_rate n_images exposure
    gain sp sg ax :
  gain <> 0 -> n_images <> 0 ->
  forall xs ys lbl,
    In (Line xs ys lbl)
       (skipn (List.length (artists ax))
          (artists (snd (plot_dark_with_distributions image rn dark_rate
                           n_images exposure gain sp sg ax)))) ->
    List.length xs = List.length ys
    /\ (lbl = gaussian_label -> List.length xs = 100%nat)
    /\ (lbl <> gaussian_label -> List.length xs = 40%nat).
Proof.
  intros Hg Hn xs ys lbl. rewrite run_returns by assumption.
  cbn [snd decorated drawn artists].
  rewrite skipn_app, Nat.sub_diag, skipn_all. cbn [skipn app].
  unfold overlays. intros [H | H]; [discriminate |].
  apply in_app_or in H.
  assert (HP : List.length (poisson_xs n_images) = 40%nat
               /\ List.length
                    (poisson_ys
                       (pois_mu (dark_rate * exposure / gain) n_images)
                       (area_value
                          (pois_mu (dark_rate * exposure / gain) n_images)
                          n_images)) = 40%nat).
  { unfold poisson_xs, poisson_ys, pois_pmf.
    now rewrite !length_map, pois_x_length. }
  destruct H as [H | H].
  - destruct sp; [| contradiction]. destruct H as [H | []].
    unfold poisson_curve in H. apply Line_inj in H.
    destruct H as (<- & <- & <-).
    destruct HP as [HP1 HP2]. split; [| split].
    + now rewrite HP1, HP2.
    + intros [=].
    + intros _. exact HP1.
  - destruct sg; [| contradiction]. destruct H as [H | []].
    unfold gaussian_curve in H. apply Line_inj in H.
    destruct H as (<- & <- & <-).
    unfold gaussian_xs, gaussian_ys, gauss_x.
    rewrite !length_map, linspace_100_length. split; [| split].
    + reflexivity.
    + reflexivity.
    + intros H. now contradiction H.
Qed.

Lemma curves_have_matching_lengths_witness :
  let xs := gauss_x (expected_mean (1 * 30 / 1) 2)
                    (expected_scale (5 / 1) 2) in
  List.length (gaussian_xs xs 2)
  = List.length
      (gaussian_ys (gauss_loc (expected_mean (1 * 30 / 1) 2))
         (gauss_scale (expected_scale (5 / 1) 2)) xs 2).
Proof.
  cbv zeta.
  refine (proj1 (curves_have_matching_lengths [[1]] 5 1 2 30 1 false true
                   clear _ _
                   (gaussian_xs
                      (gauss_x (expected_mean (1 * 30 / 1) 2)
                               (expected_scale (5 / 1) 2)) 2)
                   (gaussian_ys (gauss_loc (expected_mean (1 * 30 / 1) 2))
                      (gauss_scale (expected_scale (5 / 1) 2))
                      (gauss_x (expected_mean (1 * 30 / 1) 2)
                               (expected_scale (5 / 1) 2)) 2)
                   gaussian_label _)); [lra | lra |].
  rewrite run_returns by lra. right. left. reflexivity.
Defined.

(** The abscissas of the Gaussian curve run from [lo = m - 3 s + 3] to
    [hi = m + 3 s + 3], a span centred 6 above the mean of the
    distribution and reaching [3 |s|] to each side, where
    [s = rn / gain * sqrt n_images]; when [s] is negative they run
    downwards.  The span covered contains the mean exactly when [|s|] is
    at least 2. *)
Theorem gaussian_window_contains_mean image rn dark_rate n_images exposure
    gain sp ax :
  gain <> 0 -> 0 < n_images ->
  let m := dark_rate * exposure / gain * n_images in
  let s := rn / gain * R_sqrt.sqrt n_images in
  let lo := m - 3 * s + 3 in
  let hi := m + 3 * s + 3 in
  let loc := m - 3 in
  let xs := linspace (Num lo) (Num hi) 100 in
  last (artists (snd (plot_dark_with_distributions image rn dark_rate
                        n_images exposure gain sp true ax)))
       (dark_frame_hist image)
  = Line (gaussian_xs xs n_images)
         (gaussian_ys loc (Num (s + 3)) xs n_images) gaussian_label
  /\ (lo + hi) / 2 = loc + 6
  /\ (Rmin lo hi <= loc <= Rmax lo hi <-> 2 <= Rabs s).
Proof.
  intros Hg Hn m s lo hi loc xs.
  rewrite run_gaussian_curve by lra. unfold gaussian_curve.
  rewrite gauss_x_Num, gauss_scale_Num by lra.
  split; [reflexivity |].
  unfold lo, hi, loc.
  split; [field |].
  unfold Rmin, Rmax, Rabs.
  destruct (Rle_dec (m - 3 * s + 3) (m + 3 * s + 3));
    destruct (Rcase_abs s); split; intros H; lra.
Qed.

Lemma gaussian_window_contains_mean_witness :
  let m := 1 * 30 / 1 * 1 in
  let s := (-3) / 1 * R_sqrt.sqrt 1 in
  Rmin (m - 3 * s + 3) (m + 3 * s + 3) <= m - 3
    <= Rmax (m - 3 * s + 3) (m + 3 * s + 3)
  <-> 2 <= Rabs s.
Proof.
  apply (gaussian_window_contains_mean [[1]] (-3) 1 1 30 1 false clear); lra.
Defined.

(** A negative number of images does not raise: [np.sqrt] yields [nan],
    and the Gaussian curve the call draws has [nan] for every abscissa and
    every ordinate. *)
Theorem negative_images_draw_nan image rn dark_rate n_images exposure gain
    sp ax :
  gain <> 0 -> n_images < 0 ->
  fst (plot_dark_with_distributions image rn dark_rate n_images exposure
         gain sp true ax) = Returned tt
  /\ last (artists (snd (plot_dark_with_distributions image rn dark_rate
                           n_images exposure gain sp true ax)))
          (dark_frame_hist image)
     = Line (repeat NaN 100) (repeat NaN 100) gaussian_label.
Proof.
  intros Hg Hn. split.
  - rewrite run_returns by lra. reflexivity.
  - rewrite run_gaussian_curve by lra. unfold gaussian_curve.
    unfold expected_scale, Numpy.sqrt.
    destruct (Rlt_dec n_images 0) as [_ | H]; [| contradiction].
    reflexivity.
Qed.

Lemma negative_images_draw_nan_witness :
  fst (plot_dark_with_distributions [[1]] 5 1 (-1) 30 1 false true clear)
  = Returned tt.
Proof.
  apply (negative_images_draw_nan [[1]] 5 1 (-1) 30 1 false clear); lra.
Defined.



Lemma norm_pdf_bounds (loc s v : R) :
  0 < s ->
  exists p,
    Stats.norm_pdf loc (Num s) (Num v) = Num p
    /\ 0 <= p <= 1 / (s * R_sqrt.sqrt (2 * PI)).
Proof.
  intros Hs. unfold Stats.norm_pdf.
  destruct (Rlt_dec 0 s) as [_ | H]; [| contradiction].
  eexists. split; [reflexivity |].
  assert (Hq : 0 < R_sqrt.sqrt (2 * PI)).
  { apply sqrt_lt_R0. pose proof PI_RGT_0. lra. }
  assert (Hd : 0 < s * R_sqrt.sqrt (2 * PI)) by now apply Rmult_lt_0_compat.
  set (t := - ((v - loc) / s) ^ 2 / 2).
  assert (Ht : t <= 0).
  { unfold t. pose proof (pow2_ge_0 ((v - loc) / s)). lra. }
  assert (He : 0 < exp t <= 1).
  { split; [apply exp_pos |].
    destruct Ht as [Ht | ->]; [| rewrite exp_0; lra].
    rewrite <- exp_0. left. now apply exp_increasing. }
  pose proof (underflow_bounds (exp t) ltac:(lra)) as Hu.
  set (e := Stats.underflow (exp t)) in *.
  assert (Hquo : 0 <= e / (s * R_sqrt.sqrt (2 * PI))
                 <= 1 / (s * R_sqrt.sqrt (2 * PI))).
  { unfold Rdiv. split.
    - apply Rmult_le_pos; [lra |]. left. now apply Rinv_0_lt_compat.
    - apply Rmult_le_compat_r; [| lra].
      left. now apply Rinv_0_lt_compat. }
  pose proof (underflow_bounds _ (proj1 Hquo)). lra.
Qed.

(** For a positive number of images and a positive scale
    [rn / gain * sqrt n_images + 3], every ordinate of the Gaussian curve
    the call draws is a number that is not negative and is at most the
    height of the density at its mean times [n_images]; it can be zero,
    far from the mean. *)
Theorem gaussian_ordinates_bounded image rn dark_rate n_images exposure gain
    sp ax :
  gain <> 0 -> 0 < n_images ->
  0 < rn / gain * R_sqrt.sqrt n_images + 3 ->
  let scale := rn / gain * R_sqrt.sqrt n_images + 3 in
  exists xs ys,
    last (artists (snd (plot_dark_with_distributions image rn dark_rate
                          n_images exposure gain sp true ax)))
         (dark_frame_hist image)
    = Line xs ys gaussian_label
    /\ Forall (fun y =>
                 exists v, y = Num v
                   /\ 0 <= v <= n_images / (scale * R_sqrt.sqrt (2 * PI)))
              ys.
Proof.
  intros Hg Hn Hs scale.
  rewrite run_gaussian_curve by lra. unfold gaussian_curve.
  rewrite gauss_scale_Num, gauss_x_Num by lra. fold scale.
  do 2 eexists. split; [reflexivity |].
  unfold gaussian_ys. rewrite linspace_Num.
  assert (Hq : 0 < R_sqrt.sqrt (2 * PI)).
  { apply sqrt_lt_R0. pose proof PI_RGT_0. lra. }
  assert (Hd : 0 < scale * R_sqrt.sqrt (2 * PI))
    by now apply Rmult_lt_0_compat.
  assert (Hone : forall v,
             exists w,
               mul (Stats.norm_pdf
                      (gauss_loc
                         (expected_mean (dark_rate * exposure / gain)
                            n_images)) (Num scale) (Num v)) (Num n_images)
               = Num w
               /\ 0 <= w <= n_images / (scale * R_sqrt.sqrt (2 * PI))).
  { intros v.
    destruct (norm_pdf_bounds
                (gauss_loc
                   (expected_mean (dark_rate * exposure / gain) n_images))
                scale v Hs) as [p [-> [Hp1 Hp2]]].
    exists (p * n_images). split; [reflexivity |]. split; [nra |].
    unfold Rdiv in *. rewrite Rmult_1_l in Hp2.
    rewrite (Rmult_comm n_images). apply Rmult_le_compat_r; lra. }
  rewrite map_app, map_map. apply Forall_app. split.
  - apply Forall_forall. intros y Hy.
    apply in_map_iff in Hy. destruct Hy as [i [<- _]]. apply Hone.
  - constructor; [apply Hone | constructor].
Qed.

Lemma gaussian_ordinates_bounded_witness :
  exists xs ys,
    last (artists (snd (plot_dark_with_distributions [[1]] 5 1 1 30 1 false
                          true clear)))
         (dark_frame_hist [[1]])
    = Line xs ys gaussian_label
    /\ Forall (fun y =>
                 exists v, y = Num v
                   /\ 0 <= v <= 1 / ((5 / 1 * R_sqrt.sqrt 1 + 3)
                                      * R_sqrt.sqrt (2 * PI)))
              ys.
Proof.
  apply (gaussian_ordinates_bounded [[1]] 5 1 1 30 1 false clear);
    try lra.
  rewrite sqrt_1. lra.
Defined.

Lemma call_outcomes_witness :
  fst (plot_dark_with_distributions [[1]] 5 1 2 30 0 true true clear)
  <> Raised (ZeroDivisionError 68).
Proof.
  apply (call_outcomes [[1]] 5 1 2 30 0 true true clear); lia.
Defined.
